(** * Master wells reconciliation: record sets, identifier normalisation,
      union by name and enrichment joins.

    The repository holds four Python files.  One is a pandas script
    ([scripts/transform_master_wells_table.py]) and three are Snowpark
    pipelines ([master_wells_transform.py],
    [notebooks/master_wells_transform.py],
    [notebooks/snowflake_transform.py]).  Each file is embedded below in a
    module of its own; the two data-frame libraries they call are embedded
    first, in [Pandas] and [Snowpark], following the documented behaviour of
    the operations the files use. *)

From Stdlib Require Import String Ascii List Bool Arith Lia Permutation.
Import ListNotations.
Open Scope string_scope.
Open Scope list_scope.

(** ** Record sets *)

(** A cell is a string or is missing (pandas [NaN], SQL [NULL]).  The script
    reads every CSV file with [dtype=str], so its cells are exactly these;
    for the warehouse tables a value is identified with its string form. *)
Definition Cell := option string.
Definition Row := list Cell.

(** A record set: the column names in order, and the rows, each row holding
    one cell per column in the order of the names. *)
Record DataFrame := mkDF { columns : list string; rows : list Row }.

(** [name in df.columns]. *)
Definition mem (name : string) (names : list string) : bool :=
  existsb (String.eqb name) names.

Definition has_column (df : DataFrame) (name : string) : bool :=
  mem name (columns df).

Fixpoint distinct (names : list string) : bool :=
  match names with
  | [] => true
  | n :: rest => negb (mem n rest) && distinct rest
  end.

(** Every row has one cell per column. *)
Definition rectangular (df : DataFrame) : bool :=
  forallb (fun r => Nat.eqb (List.length r) (List.length (columns df))) (rows df).

(** No column name occurs twice and the rows fit the columns. *)
Definition well_formed (df : DataFrame) : bool :=
  distinct (columns df) && rectangular df.

(** The cell of row [r] under the column called [name]; missing when the row
    has no such column. *)
Fixpoint get (names : list string) (r : Row) (name : string) : Cell :=
  match names, r with
  | n :: names', v :: r' => if String.eqb n name then v else get names' r' name
  | _, _ => None
  end.

(** Row [r] with the cell under [name] replaced by [v]. *)
Fixpoint put (names : list string) (r : Row) (name : string) (v : Cell) : Row :=
  match names, r with
  | n :: names', x :: r' =>
      if String.eqb n name then v :: r' else x :: put names' r' name v
  | _, _ => r
  end.

(** The cells of row [r] under the columns [wanted], in that order. *)
Definition project (names : list string) (r : Row) (wanted : list string) : Row :=
  map (get names r) wanted.

(** The values of one column, top to bottom. *)
Definition column (df : DataFrame) (name : string) : list Cell :=
  map (fun r => get (columns df) r name) (rows df).

Definition nulls (n : nat) : Row := repeat None n.

Definition cell_eqb (a b : Cell) : bool :=
  match a, b with
  | Some x, Some y => String.eqb x y
  | None, None => true
  | _, _ => false
  end.

Fixpoint row_eqb (a b : Row) : bool :=
  match a, b with
  | [], [] => true
  | x :: a', y :: b' => cell_eqb x y && row_eqb a' b'
  | _, _ => false
  end.

(** ** Failures *)

Inductive Error :=
| KeyError (msg : string)
| MergeError (msg : string)
| ValueError (msg : string)
| SnowparkColumnException (name : string)
| SnowparkSQLException (msg : string).

Definition Result (A : Type) : Type := (Error + A)%type.

Definition ok {A} (a : A) : Result A := inr a.
Definition raise {A} (e : Error) : Result A := inl e.

Definition bind {A B} (m : Result A) (k : A -> Result B) : Result B :=
  match m with
  | inl e => inl e
  | inr a => k a
  end.

Notation "x <- m ;; k" := (bind m (fun x => k))
  (at level 61, m at next level, right associativity).

(** ** Strings *)

Fixpoint zeros (n : nat) : string :=
  match n with
  | O => EmptyString
  | S k => String "0" (zeros k)
  end.

(** The first [n] characters of [s] (all of [s] when it is shorter). *)
Definition take (n : nat) (s : string) : string := substring 0 n s.

Definition is_sign (c : ascii) : bool :=
  Ascii.eqb c "+" || Ascii.eqb c "-".

(** Python's [str.zfill(width)], which pandas' [Series.str.zfill] applies to
    each string: a string of [width] or more characters is returned as it is;
    a shorter one gets zeros on the left, after a leading sign if it has
    one. *)
Definition zfill (width : nat) (s : string) : string :=
  if (width <=? String.length s)%nat then s
  else
    let fill := width - String.length s in
    match s with
    | String c rest =>
        if is_sign c then String c (zeros fill ++ rest)%string
        else (zeros fill ++ s)%string
    | EmptyString => zeros fill
    end.

(** The first [n] characters of [pad] repeated as often as needed; [cur] is
    what is left of the current repetition. *)
Fixpoint cycle (pad cur : string) (n : nat) : string :=
  match n with
  | O => EmptyString
  | S k =>
      match cur with
      | String c rest => String c (cycle pad rest k)
      | EmptyString =>
          match pad with
          | String c rest => String c (cycle pad rest k)
          | EmptyString => EmptyString
          end
      end
  end.

(** SQL [LPAD(base, len, pad)]: the result has [len] characters; a shorter
    [base] is padded on the left with [pad], a longer one is cut to its first
    [len] characters. *)
Definition sql_lpad (base : string) (len : nat) (pad : string) : string :=
  if (len <=? String.length base)%nat then take len base
  else (cycle pad pad (len - String.length base) ++ base)%string.

(** SQL [SUBSTRING(s, pos, len)], positions counted from 1. *)
Definition sql_substring (s : string) (pos len : nat) : string :=
  substring (pos - 1) len s.

Definition upper_ascii (c : ascii) : ascii :=
  let n := nat_of_ascii c in
  if ((97 <=? n)%nat && (n <=? 122)%nat)%bool then ascii_of_nat (n - 32) else c.

(** SQL [UPPER], on the ASCII letters. *)
Fixpoint sql_upper (s : string) : string :=
  match s with
  | EmptyString => EmptyString
  | String c rest => String (upper_ascii c) (sql_upper rest)
  end.

(** ** Table names *)

(** Python truthiness of an optional string: [None] and [""] are false. *)
Definition truthy (o : option string) : bool :=
  match o with
  | Some s => negb (String.eqb s "")
  | None => false
  end.

(** What an f-string prints for an optional string. *)
Definition fmt (o : option string) : string :=
  match o with
  | Some s => s
  | None => "None"
  end.

(** [build_table_name], the same text in the three Snowpark files. *)
Definition build_table_name (table : string) (database schema : option string)
  : string :=
  if truthy database && truthy schema then
    (fmt database ++ "." ++ fmt schema ++ "." ++ table)%string
  else if truthy schema then
    (fmt schema ++ "." ++ table)%string
  else table.

(** ** pandas, as the script uses it *)

Module Pandas.

Definition Series := list Cell.

(** [df[name]], for a column the frame has. *)
Definition getitem (df : DataFrame) (name : string) : Series :=
  column df name.

(** [s.astype(str)]: strings stay as they are, a missing value becomes the
    text [nan]. *)
Definition astype_str (s : Series) : Series :=
  map (fun c => match c with
                | Some x => Some x
                | None => Some "nan"
                end) s.

(** [s.str.zfill(width)]; a missing value stays missing. *)
Definition str_zfill (width : nat) (s : Series) : Series :=
  map (option_map (zfill width)) s.

(** [s.str[:n]]; a missing value stays missing. *)
Definition str_slice (n : nat) (s : Series) : Series :=
  map (option_map (take n)) s.

(** [df[name] = s], with [s] holding one value per row of [df]: an existing
    column is overwritten where it stands, a new one is added last. *)
Definition setitem (df : DataFrame) (name : string) (s : Series) : DataFrame :=
  if has_column df name then
    mkDF (columns df)
         (map (fun rv => put (columns df) (fst rv) name (snd rv))
              (combine (rows df) s))
  else
    mkDF (columns df ++ [name])
         (map (fun rv => fst rv ++ [snd rv]) (combine (rows df) s)).

(** The renaming of one label of a merge: a label both sides have gets the
    side's suffix, when the side has one. *)
Definition renamer (to_rename : list string) (suffix : option string)
           (x : string) : string :=
  match suffix with
  | Some sfx => if mem x to_rename then (x ++ sfx)%string else x
  | None => x
  end.

(** The rows of [right] whose key equals the key of the left row [b]; two
    missing keys are equal to pandas. *)
Definition matching (left right : DataFrame) (on : string) (b : Row)
  : list Row :=
  filter (fun s => cell_eqb (get (columns left) b on)
                            (get (columns right) s on))
         (rows right).

(** The output rows of one left row: one per matching right row, in the
    order of [right], or a single row with missing values when there is
    none. *)
Definition merged_rows (left right : DataFrame) (on : string)
           (rest : list string) (b : Row) : list Row :=
  match matching left right on b with
  | [] => [b ++ nulls (List.length rest)]
  | ms => map (fun s => b ++ project (columns right) s rest) ms
  end.

(** Whether the renaming made a label occur twice: a renamed label that
    repeats an earlier one while the label it comes from repeated none. *)
Fixpoint repeats_by_suffix (seen_old seen_new old new : list string) : bool :=
  match old, new with
  | o :: old', n :: new' =>
      (mem n seen_new && negb (mem o seen_old))
      || repeats_by_suffix (o :: seen_old) (n :: seen_new) old' new'
  | _, _ => false
  end.

(** The labels of the two sides of a merge ([_items_overlap_with_suffix]):
    unchanged when the sides share no label; else the shared labels are
    renamed with the suffixes, and a renaming that makes a label occur twice
    is refused. *)
Definition items_overlap_with_suffix (left right : list string)
           (suffixes : option string * option string)
  : Result (list string * list string) :=
  let to_rename := filter (fun c => mem c right) left in
  match to_rename with
  | [] => ok (left, right)
  | _ :: _ =>
      if negb (truthy (fst suffixes)) && negb (truthy (snd suffixes)) then
        raise (ValueError "columns overlap but no suffix specified")
      else
        let llabels := map (renamer to_rename (fst suffixes)) left in
        let rlabels := map (renamer to_rename (snd suffixes)) right in
        if repeats_by_suffix [] [] left llabels
           || repeats_by_suffix [] [] right rlabels
           || existsb (fun c => mem c rlabels) llabels then
          raise (MergeError "suffixes cause duplicate columns")
        else ok (llabels, rlabels)
  end.

(** [left.merge(right, on=on, how='left', suffixes=suffixes)].  The key
    column of [right] is dropped, the other labels are settled by
    [items_overlap_with_suffix], and the rows follow the rows of [left]. *)
Definition merge (left right : DataFrame) (on : string)
           (suffixes : option string * option string) : Result DataFrame :=
  if negb (has_column left on) || negb (has_column right on) then
    raise (KeyError on)
  else
    let rest := filter (fun c => negb (String.eqb c on)) (columns right) in
    labels <- items_overlap_with_suffix (columns left) rest suffixes ;;
    ok (mkDF (fst labels ++ snd labels)
             (flat_map (merged_rows left right on rest) (rows left))).

End Pandas.

(** ** Snowpark, as the pipelines use it *)

Module Snowpark.

(** Column expressions built with [snowflake.snowpark.functions]. *)
Inductive Column :=
| col (name : string)
| lit (v : string)
| lpad (e : Column) (len : nat) (pad : Column)
| substring (e : Column) (pos len : nat)
| upper (e : Column)
| cast_string (e : Column).

(** The column names an expression reads. *)
Fixpoint refs (e : Column) : list string :=
  match e with
  | col name => [name]
  | lit _ => []
  | lpad e' _ pad => refs e' ++ refs pad
  | substring e' _ _ => refs e'
  | upper e' => refs e'
  | cast_string e' => refs e'
  end.

(** The value of an expression on one row; SQL functions give [NULL] on a
    [NULL] argument. *)
Fixpoint eval (names : list string) (r : Row) (e : Column) : Cell :=
  match e with
  | col name => get names r name
  | lit v => Some v
  | lpad e' len pad =>
      match eval names r e', eval names r pad with
      | Some s, Some p => Some (sql_lpad s len p)
      | _, _ => None
      end
  | substring e' pos len =>
      option_map (fun s => sql_substring s pos len) (eval names r e')
  | upper e' => option_map sql_upper (eval names r e')
  | cast_string e' => eval names r e'
  end.

Definition resolves (df : DataFrame) (e : Column) : bool :=
  forallb (has_column df) (refs e).

(** [df.with_column(name, e)]: a column of that name is replaced, the new
    column comes last.  An expression over a column the frame lacks is an
    SQL compilation error. *)
Definition with_column (df : DataFrame) (name : string) (e : Column)
  : Result DataFrame :=
  if resolves df e then
    let kept := filter (fun c => negb (String.eqb c name)) (columns df) in
    ok (mkDF (kept ++ [name])
             (map (fun r => project (columns df) r kept
                            ++ [eval (columns df) r e])
                  (rows df)))
  else raise (SnowparkSQLException "invalid identifier").

(** [df.select([e.alias(name), ...])]. *)
Definition select (df : DataFrame) (es : list (Column * string))
  : Result DataFrame :=
  if forallb (fun ea => resolves df (fst ea)) es then
    ok (mkDF (map snd es)
             (map (fun r => map (fun ea => eval (columns df) r (fst ea)) es)
                  (rows df)))
  else raise (SnowparkSQLException "invalid identifier").

(** [df[name]]: a reference to a column of [df], refused when [df] has no
    column of that name. *)
Definition getitem (df : DataFrame) (name : string) : Result string :=
  if has_column df name then ok name
  else raise (SnowparkColumnException name).

(** SQL equality: a [NULL] equals nothing. *)
Definition sql_eq (a b : Cell) : bool :=
  match a, b with
  | Some x, Some y => String.eqb x y
  | _, _ => false
  end.

(** The prefixes a join by expression puts on the names both sides have:
    [l_] and [r_], four random characters each, and [_]. *)
Definition l_prefix (rnd : string * string) : string :=
  ("l_" ++ fst rnd ++ "_")%string.
Definition r_prefix (rnd : string * string) : string :=
  ("r_" ++ snd rnd ++ "_")%string.

Definition disambiguate (common : list string) (prefix name : string)
  : string :=
  if mem name common then (prefix ++ name)%string else name.

Definition joined_rows (left right : DataFrame) (lkey rkey : string)
           (b : Row) : list Row :=
  match filter (fun s => sql_eq (get (columns left) b lkey)
                                (get (columns right) s rkey))
               (rows right) with
  | [] => [b ++ nulls (List.length (columns right))]
  | ms => map (fun s => b ++ s) ms
  end.

(** [left.join(right, left[lkey] == right[rkey], how="left")].  A join by
    expression keeps the columns of both sides, the key columns included;
    a name both sides have is prefixed on each side.  [rnd] is the pair of
    random strings drawn for the prefixes.  The order of the rows of an SQL
    result is not fixed; the rows are listed here by left row. *)
Definition join (rnd : string * string) (left right : DataFrame)
           (lkey rkey : string) : DataFrame :=
  let common := filter (fun c => mem c (columns right)) (columns left) in
  mkDF (map (disambiguate common (l_prefix rnd)) (columns left)
        ++ map (disambiguate common (r_prefix rnd)) (columns right))
       (flat_map (joined_rows left right lkey rkey) (rows left)).

(** The rows of [l] without repetition. *)
Fixpoint dedup (l : list Row) : list Row :=
  match l with
  | [] => []
  | r :: rest => r :: filter (fun x => negb (row_eqb r x)) (dedup rest)
  end.

(** [df1.union_by_name(df2)]: an SQL [UNION] (duplicate rows are removed)
    of [df1] with [df2] rearranged to the column order of [df1].  Every
    column of [df1] must be found in [df2], and [df2] may have no further
    column, or the statement does not compile. *)
Definition union_by_name (df1 df2 : DataFrame) : Result DataFrame :=
  match find (fun c => negb (has_column df2 c)) (columns df1) with
  | Some c => raise (SnowparkColumnException c)
  | None =>
      if Nat.eqb (List.length (columns df2)) (List.length (columns df1)) then
        ok (mkDF (columns df1)
                 (dedup (rows df1
                         ++ map (fun r => project (columns df2) r (columns df1))
                                (rows df2))))
      else
        raise (SnowparkSQLException
                 "invalid number of result columns for set operator")
  end.

(** A session gives the tables of the warehouse by name. *)
Definition Session := string -> option DataFrame.

(** [session.table(name)]. *)
Definition table (session : Session) (name : string) : Result DataFrame :=
  match session name with
  | Some df => ok df
  | None => raise (SnowparkSQLException "object does not exist")
  end.

(** [df.write.save_as_table(name, mode="overwrite")]: the table of that name
    is replaced by [df], the other tables stay. *)
Definition save_as_table (session : Session) (name : string) (df : DataFrame)
  : Session :=
  fun n => if String.eqb n name then Some df else session n.

End Snowpark.

(** ** scripts/transform_master_wells_table.py *)

Module Scripts.
Import Pandas.

Definition no_api_column : string := "No column available to build API14".

(** [generate_api_columns].  The script assigns into the frame it is given
    and returns it; the frame after the assignments is the result here. *)
Definition generate_api_columns (df : DataFrame) : Result DataFrame :=
  df1 <- (if negb (has_column df "API14") then
            if has_column df "API" then
              ok (setitem df "API14"
                          (str_zfill 14 (astype_str (getitem df "API"))))
            else if has_column df "APINumber" then
              ok (setitem df "API14"
                          (str_zfill 14 (astype_str (getitem df "APINumber"))))
            else raise (KeyError no_api_column)
          else ok df) ;;
  let df2 := setitem df1 "API12" (str_slice 12 (getitem df1 "API14")) in
  let df3 := setitem df2 "API10" (str_slice 10 (getitem df2 "API14")) in
  ok df3.

Definition join_env_columns (df env_df : DataFrame) : Result DataFrame :=
  merge df env_df "API14" (None, Some "_env").

Definition join_rbc_columns (df rbc_df : DataFrame) : Result DataFrame :=
  merge df rbc_df "API14" (None, Some "_rbc").

(** [main] between reading the three CSV files and writing the result. *)
Definition main (master_df env_df rbc_df : DataFrame) : Result DataFrame :=
  master_df <- generate_api_columns master_df ;;
  master_df <- join_env_columns master_df env_df ;;
  join_rbc_columns master_df rbc_df.

End Scripts.

(** ** notebooks/master_wells_transform.py *)

Module Notebook.
Import Snowpark.

Definition no_api_column : string := "No column available to build API14".

Definition generate_api_columns (df : DataFrame) : Result DataFrame :=
  df1 <- (if negb (has_column df "API14") then
            if has_column df "API" then
              with_column df "API14" (lpad (col "API") 14 (lit "0"))
            else if has_column df "APINumber" then
              with_column df "API14" (lpad (col "APINumber") 14 (lit "0"))
            else raise (KeyError no_api_column)
          else ok df) ;;
  df2 <- with_column df1 "API12" (substring (col "API14") 1 12) ;;
  with_column df2 "API10" (substring (col "API14") 1 10).

(** The aliases of the secondary columns: the key keeps its name, every
    other column gets the suffix. *)
Definition suffixed (suffix : string) (c : string) : string :=
  if String.eqb c "API14" then c else (c ++ suffix)%string.

Definition env_cols (env_df : DataFrame) : list (Column * string) :=
  map (fun c => (col c, suffixed "_env" c)) (columns env_df).

Definition rbc_cols (rbc_df : DataFrame) : list (Column * string) :=
  map (fun c => (col c, suffixed "_rbc" c)) (columns rbc_df).

Definition join_env_columns (rnd : string * string) (df env_df : DataFrame)
  : Result DataFrame :=
  env_renamed <- select env_df (env_cols env_df) ;;
  lkey <- getitem df "API14" ;;
  rkey <- getitem env_renamed "API14" ;;
  ok (join rnd df env_renamed lkey rkey).

Definition join_rbc_columns (rnd : string * string) (df rbc_df : DataFrame)
  : Result DataFrame :=
  rbc_renamed <- select rbc_df (rbc_cols rbc_df) ;;
  lkey <- getitem df "API14" ;;
  rkey <- getitem rbc_renamed "API14" ;;
  ok (join rnd df rbc_renamed lkey rkey).

Definition build_table_name := build_table_name.

(** [transform_master_wells_table]; [rnd1] and [rnd2] are the random strings
    of the two joins. *)
Definition transform_master_wells_table (session : Session)
           (env_table rbc_table : string) (rnd1 rnd2 : string * string)
  : Result DataFrame :=
  rb_energy_wells <- table session "TG40.TZ_ADA_MP_RB_ENERGY.RB_ENERGY_WELLS" ;;
  env_df <- table session env_table ;;
  rbc_df <- table session rbc_table ;;
  combined <- union_by_name rb_energy_wells env_df ;;
  combined <- generate_api_columns combined ;;
  combined <- with_column combined "WELL_NAME_UPPER" (upper (col "WELL_NAME")) ;;
  combined <- join_env_columns rnd1 combined env_df ;;
  join_rbc_columns rnd2 combined rbc_df.

(** [main]: the warehouse after the run, and what the run returns.  The
    table is written once the transformation has returned. *)
Definition main (session : Session) (database schema : option string)
           (output_table env_table rbc_table : string)
           (rnd1 rnd2 : string * string) : Session * Result DataFrame :=
  match transform_master_wells_table session env_table rbc_table rnd1 rnd2 with
  | inl e => (session, inl e)
  | inr transformed =>
      let full_table_name := build_table_name output_table database schema in
      (save_as_table session full_table_name transformed, inr transformed)
  end.

End Notebook.

(** ** master_wells_transform.py *)

Module Root.
Import Snowpark.

Definition load_table (session : Session) (table_name : string)
  : Result DataFrame :=
  table session table_name.

Definition union_tables (df1 df2 : DataFrame) : Result DataFrame :=
  union_by_name df1 df2.

(** [join_tables], called with [how="left"] and an equality of one column
    of each side. *)
Definition join_tables (rnd : string * string) (df_left df_right : DataFrame)
           (join_exprs : string * string) : DataFrame :=
  join rnd df_left df_right (fst join_exprs) (snd join_exprs).

Definition derive_columns (df : DataFrame) : Result DataFrame :=
  df <- with_column df "API_WELL_NUMBER" (cast_string (col "API_WELL_NUMBER")) ;;
  with_column df "WELL_NAME_UPPER" (upper (col "WELL_NAME")).

Definition transform_master_wells_table (session : Session)
           (rnd : string * string) : Result DataFrame :=
  rb_energy_wells <- load_table session "TG40.TZ_ADA_MP_RB_ENERGY.RB_ENERGY_WELLS" ;;
  raw_env_prism_wells <- load_table session "RAW_ENV_PRISM_WELLS" ;;
  rbc_well_overrides <- load_table session "RBC_WELL_OVERRIDES" ;;
  combined <- union_tables rb_energy_wells raw_env_prism_wells ;;
  enhanced <- derive_columns combined ;;
  lkey <- getitem enhanced "API_WELL_NUMBER" ;;
  rkey <- getitem rbc_well_overrides "API_WELL_NUMBER" ;;
  ok (join_tables rnd enhanced rbc_well_overrides (lkey, rkey)).

Definition build_table_name := build_table_name.

(** [main]: the warehouse after the run, and what the run returns.  The
    table is written once the transformation has returned. *)
Definition main (session : Session) (database schema : option string)
           (output_table : string) (rnd : string * string)
  : Session * Result DataFrame :=
  match transform_master_wells_table session rnd with
  | inl e => (session, inl e)
  | inr transformed =>
      let full_table_name := build_table_name output_table database schema in
      (save_as_table session full_table_name transformed, inr transformed)
  end.

End Root.

(** ** notebooks/snowflake_transform.py *)

Module SnowflakeTransform.
Import Snowpark.

Definition load_table (session : Session) (table_name : string)
  : Result DataFrame :=
  table session table_name.

Definition union_tables (df1 df2 : DataFrame) : Result DataFrame :=
  union_by_name df1 df2.

Definition join_tables (rnd : string * string) (df_left df_right : DataFrame)
           (join_exprs : string * string) : DataFrame :=
  join rnd df_left df_right (fst join_exprs) (snd join_exprs).

Definition derive_columns (df : DataFrame) : Result DataFrame :=
  df <- with_column df "API_WELL_NUMBER" (cast_string (col "API_WELL_NUMBER")) ;;
  with_column df "WELL_NAME_UPPER" (upper (col "WELL_NAME")).

Definition transform_master_wells_table (session : Session)
           (rnd : string * string) : Result DataFrame :=
  rb_energy_wells <- load_table session "TG40.TZ_ADA_MP_RB_ENERGY.RB_ENERGY_WELLS" ;;
  raw_env_prism_wells <- load_table session "RAW_ENV_PRISM_WELLS" ;;
  rbc_well_overrides <- load_table session "RBC_WELL_OVERRIDES" ;;
  combined <- union_tables rb_energy_wells raw_env_prism_wells ;;
  enhanced <- derive_columns combined ;;
  lkey <- getitem enhanced "API_WELL_NUMBER" ;;
  rkey <- getitem rbc_well_overrides "API_WELL_NUMBER" ;;
  ok (join_tables rnd enhanced rbc_well_overrides (lkey, rkey)).

Definition build_table_name := build_table_name.

(** [main]: the warehouse after the run, and what the run returns.  The
    table is written once the transformation has returned. *)
Definition main (session : Session) (database schema : option string)
           (table_name : string) (rnd : string * string)
  : Session * Result DataFrame :=
  match transform_master_wells_table session rnd with
  | inl e => (session, inl e)
  | inr transformed =>
      let full_table_name := build_table_name table_name database schema in
      (save_as_table session full_table_name transformed, inr transformed)
  end.

End SnowflakeTransform.

(** ** The properties the statements below speak of *)

(** The frame has one of the three raw identifier columns. *)
Definition carries_identifier (df : DataFrame) : bool :=
  has_column df "API14" || has_column df "API" || has_column df "APINumber".

(** The column [API14] is taken from: [API14] itself when the frame has it,
    else the padded [API] column, else the padded [APINumber] column. *)
Definition api14_source (pad : list Cell -> list Cell) (df : DataFrame)
  : list Cell :=
  if has_column df "API14" then column df "API14"
  else if has_column df "API" then pad (column df "API")
  else pad (column df "APINumber").

(** The padding of a raw column in the script and in the notebook. *)
Definition pandas_pad (s : list Cell) : list Cell :=
  Pandas.str_zfill 14 (Pandas.astype_str s).

Definition snowpark_pad (s : list Cell) : list Cell :=
  map (fun c => match c with
                | Some x => Some (sql_lpad x 14 "0")
                | None => None
                end) s.

(** [p] is a prefix of [c]; a missing value goes with a missing value. *)
Definition prefix_cell (p c : Cell) : Prop :=
  match p, c with
  | Some x, Some y => prefix x y = true
  | None, None => True
  | _, _ => False
  end.

(** [out] carries the three identifier columns derived from [df]. *)
Definition normalised (pad : list Cell -> list Cell) (df out : DataFrame)
  : Prop :=
  has_column out "API14" = true /\
  has_column out "API12" = true /\
  has_column out "API10" = true /\
  column out "API14" = api14_source pad df /\
  column out "API12" = map (option_map (take 12)) (column out "API14") /\
  column out "API10" = map (option_map (take 10)) (column out "API14") /\
  Forall2 prefix_cell (column out "API12") (column out "API14") /\
  Forall2 prefix_cell (column out "API10") (column out "API14").


(** The string form of a raw value, as [astype(str)] gives it. *)
Definition string_form (raw : Cell) : string :=
  match raw with
  | Some s => s
  | None => "nan"
  end.


(** The padding in the words of the specification: zeros on the left up to 14
    characters for a shorter string form, the string form as it is
    otherwise. *)
Definition padded_as_specified (raw api14 : Cell) : Prop :=
  let s := string_form raw in
  (String.length s < 14 ->
   api14 = Some (zeros (14 - String.length s) ++ s)%string) /\
  (14 <= String.length s -> api14 = Some s).



(** ** Sample record sets *)

Definition wells_by_api : DataFrame :=
  mkDF ["API"; "WELL_NAME"; "API12"]
       [[Some "123"; Some "Alpha 1"; Some "stale"];
        [Some "4250120130"; Some "Bravo 2"; None]].


(** An identifier with a sign in front. *)
Definition signed_api : DataFrame := mkDF ["API"] [[Some "-5"]].

(** ** Union by name *)

(** The two frames have the same column names, in whatever order. *)
Definition same_names (df1 df2 : DataFrame) : Prop :=
  forall c, In c (columns df1) <-> In c (columns df2).

(** The union in the words of the specification: the columns of the first
    frame, then the columns only the second has; the rows of the first frame,
    then the rows of the second, each with a missing value under the columns
    its frame lacks. *)
Definition union_as_specified (df1 df2 out : DataFrame) : Prop :=
  columns out
  = columns df1 ++ filter (fun c => negb (mem c (columns df1))) (columns df2)
  /\ rows out
     = map (fun r => project (columns df1) r (columns out)) (rows df1)
       ++ map (fun r => project (columns df2) r (columns out)) (rows df2).

(** The example of the specification: two rows of well names, three rows of
    depths. *)
Definition set_a : DataFrame :=
  mkDF ["API14"; "WELL_NAME"]
       [[Some "00000000000001"; Some "Alpha 1"];
        [Some "00000000000002"; Some "Bravo 2"]].

Definition set_b : DataFrame :=
  mkDF ["API14"; "DEPTH"]
       [[Some "00000000000001"; Some "9100"];
        [Some "00000000000003"; Some "8700"];
        [Some "00000000000004"; Some "12000"]].

(** The same columns in another order, one row shared with [set_a]. *)
Definition set_a' : DataFrame :=
  mkDF ["WELL_NAME"; "API14"]
       [[Some "Alpha 1"; Some "00000000000001"];
        [Some "Charlie 3"; Some "00000000000003"]].

(** ** Left outer join *)

(** The columns of a secondary frame other than the join key. *)
Definition payload_names (sec : DataFrame) : list string :=
  filter (fun c => negb (String.eqb c "API14")) (columns sec).

(** What a left outer join returns for one base row [b], given the secondary
    rows [found] that match it: one row for each of them, [b] followed by what
    the secondary row brings, or a single row, [b] followed by [width] missing
    values, when there is none. *)
Definition left_outer_block (found : list Row) (payload : Row -> Row)
           (width : nat) (b : Row) (block : list Row) : Prop :=
  (found = [] -> block = [b ++ nulls width]) /\
  (found <> [] -> block = map (fun s => b ++ payload s) found) /\
  List.length block = Nat.max 1 (List.length found).

(** [out] is the left outer join of [base]: the blocks of the base rows, in
    the order of the base rows. *)
Definition left_outer_join (found : Row -> list Row) (payload : Row -> Row)
           (width : nat) (base out : list Row) : Prop :=
  exists blocks,
    out = concat blocks
    /\ Forall2 (fun b block => left_outer_block (found b) payload width b block)
               base blocks.


(** Three wells, and two secondary sets: one with a well name of its own and
    two rows for the first well, one with a name no other set has. *)
Definition base_wells : DataFrame :=
  mkDF ["API14"; "WELL_NAME"]
       [[Some "00000000000001"; Some "Alpha 1"];
        [Some "00000000000002"; Some "Bravo 2"];
        [None; Some "Charlie 3"]].

Definition env_wells : DataFrame :=
  mkDF ["API14"; "WELL_NAME"; "BASIN"]
       [[Some "00000000000001"; Some "ALPHA"; Some "Permian"];
        [Some "00000000000001"; Some "ALPHA-1"; Some "Delaware"];
        [None; Some "UNKNOWN"; None]].





(** ** Renaming of the secondary columns *)


(** Every output row begins with the cells of a base row. *)
Definition extends_base_rows (df out : DataFrame) : Prop :=
  Forall (fun row => exists b, In b (rows df) /\ firstn (List.length b) row = b)
         (rows out).

(** ** Joins in either order *)

(** No name of [l1] is a name of [l2]. *)
Definition disjoint (l1 l2 : list string) : bool :=
  forallb (fun c => negb (mem c l2)) l1.



(** The frame the notebook's environmental join returns on the sample
    sets. *)
Definition notebook_joined : DataFrame :=
  mkDF ["l_av5t_API14"; "WELL_NAME"; "r_1p6k_API14"; "WELL_NAME_env"; "BASIN_env"]
       [[Some "00000000000001"; Some "Alpha 1";
         Some "00000000000001"; Some "ALPHA"; Some "Permian"];
        [Some "00000000000001"; Some "Alpha 1";
         Some "00000000000001"; Some "ALPHA-1"; Some "Delaware"];
        [Some "00000000000002"; Some "Bravo 2"; None; None; None];
        [None; Some "Charlie 3"; None; None; None]].





(** The frame the script's environmental join returns on the sample sets. *)
Definition script_joined : DataFrame :=
  mkDF ["API14"; "WELL_NAME"; "WELL_NAME_env"; "BASIN"]
       [[Some "00000000000001"; Some "Alpha 1"; Some "ALPHA"; Some "Permian"];
        [Some "00000000000001"; Some "Alpha 1"; Some "ALPHA-1"; Some "Delaware"];
        [Some "00000000000002"; Some "Bravo 2"; None; None];
        [None; Some "Charlie 3"; Some "UNKNOWN"; None]].

(** ** The three pipelines *)

(** A base frame and an override set with both keys: the two override rows
    are rows of the base well by [API14] and of no well by
    [API_WELL_NUMBER]. *)
Definition enhanced_sample : DataFrame :=
  mkDF ["API14"; "API_WELL_NUMBER"; "WELL_NAME"]
       [[Some "00000000000001"; Some "42-001"; Some "Alpha 1"]].

Definition overrides_sample : DataFrame :=
  mkDF ["API14"; "API_WELL_NUMBER"; "OPERATOR"]
       [[Some "00000000000001"; Some "42-777"; Some "Acme"];
        [Some "00000000000001"; Some "42-888"; Some "Zenith"]].

(** A warehouse with the three tables of the pipelines. *)
Definition sample_session : Snowpark.Session :=
  fun name =>
    if String.eqb name "TG40.TZ_ADA_MP_RB_ENERGY.RB_ENERGY_WELLS" then
      Some enhanced_sample
    else if String.eqb name "RAW_ENV_PRISM_WELLS" then
      Some (mkDF ["WELL_NAME"; "API14"; "API_WELL_NUMBER"]
                 [[Some "Bravo 2"; Some "00000000000002"; Some "42-002"]])
    else if String.eqb name "RBC_WELL_OVERRIDES" then Some overrides_sample
    else None.

(** ** Further properties of the normaliser *)

(** [m] is none of the three identifier columns. *)
Definition other_column (m : string) : Prop :=
  m <> "API14" /\ m <> "API12" /\ m <> "API10".

(** [out] has the rows of [df], one for one, and the columns of [df] other
    than the identifier columns as they were. *)
Definition keeps_the_rest (df out : DataFrame) : Prop :=
  List.length (rows out) = List.length (rows df)
  /\ forall m, other_column m ->
               has_column out m = has_column df m
               /\ column out m = column df m.




(** ** The script from end to end *)

(** A master file with raw identifiers, and an override file without the
    key column. *)
Definition master_by_api : DataFrame :=
  mkDF ["API"; "WELL_NAME"]
       [[Some "1"; Some "Alpha 1"];
        [Some "2"; Some "Bravo 2"];
        [Some "3"; Some "Charlie 3"]].

Definition env_by_key : DataFrame :=
  mkDF ["API14"; "BASIN"]
       [[Some "00000000000001"; Some "Permian"];
        [Some "00000000000003"; Some "Delaware"]].

Definition rbc_by_key : DataFrame :=
  mkDF ["API14"; "OPERATOR"]
       [[Some "00000000000002"; Some "Acme"]].

Definition rbc_without_key : DataFrame :=
  mkDF ["API"; "OPERATOR"] [[Some "2"; Some "Acme"]].

(** The union of the sample sets [set_a] and [set_a']. *)
Definition set_a_union : DataFrame :=
  mkDF ["API14"; "WELL_NAME"]
       [[Some "00000000000001"; Some "Alpha 1"];
        [Some "00000000000002"; Some "Bravo 2"];
        [Some "00000000000003"; Some "Charlie 3"]].

(** The three tables the two shorter pipelines read. *)
Definition reads_tables (session : Snowpark.Session)
           (rb env rbc : option DataFrame) : Prop :=
  session "TG40.TZ_ADA_MP_RB_ENERGY.RB_ENERGY_WELLS" = rb
  /\ session "RAW_ENV_PRISM_WELLS" = env
  /\ session "RBC_WELL_OVERRIDES" = rbc.

(** The identifier columns a frame does not have yet, in the order the
    script adds them. *)
Definition missing_identifier_columns (df : DataFrame) : list string :=
  filter (fun c => negb (has_column df c)) ["API14"; "API12"; "API10"].

(** * Properties *)

(** ** Names, rows and cells *)

Lemma mem_In (n : string) (l : list string) : mem n l = true <-> In n l.
Proof.
  unfold mem. rewrite existsb_exists. split.
  - intros [x [Hx He]]. apply String.eqb_eq in He. now subst.
  - intros H. exists n. split; [assumption | apply String.eqb_refl].
Qed.

Lemma mem_false (n : string) (l : list string) : mem n l = false <-> ~ In n l.
Proof.
  rewrite <- mem_In. destruct (mem n l); split; intros; congruence.
Qed.

Lemma mem_app (n : string) (l1 l2 : list string) :
  mem n (l1 ++ l2) = mem n l1 || mem n l2.
Proof. unfold mem. apply existsb_app. Qed.

Lemma mem_filter_ne (n x : string) (l : list string) :
  mem n (filter (fun c => negb (String.eqb c x)) l)
  = mem n l && negb (String.eqb n x).
Proof.
  induction l as [|a l IH]; simpl; [reflexivity|].
  destruct (String.eqb a x) eqn:Eax; simpl.
  - rewrite IH. apply String.eqb_eq in Eax. subst a.
    destruct (String.eqb n x) eqn:Enx; simpl.
    + now rewrite andb_false_r.
    + reflexivity.
  - rewrite IH. destruct (String.eqb n a) eqn:Ena; simpl; [|reflexivity].
    apply String.eqb_eq in Ena. subst a. now rewrite Eax.
Qed.

Lemma distinct_NoDup (l : list string) : distinct l = true <-> NoDup l.
Proof.
  induction l as [|a l IH]; simpl.
  - split; [constructor | reflexivity].
  - rewrite andb_true_iff, negb_true_iff, mem_false, IH. split.
    + intros [H1 H2]. now constructor.
    + intros H. inversion H. now split.
Qed.

Lemma rectangular_Forall (df : DataFrame) :
  rectangular df = true <->
  Forall (fun r => List.length r = List.length (columns df)) (rows df).
Proof.
  unfold rectangular. rewrite forallb_forall, Forall_forall.
  split; intros H r Hr; specialize (H r Hr);
    [now apply Nat.eqb_eq | now apply Nat.eqb_eq].
Qed.

Lemma get_absent (names : list string) (r : Row) (name : string) :
  ~ In name names -> get names r name = None.
Proof.
  revert r. induction names as [|n names IH]; intros r H; simpl.
  - now destruct r.
  - destruct r as [|v r]; [reflexivity|].
    destruct (String.eqb n name) eqn:E.
    + apply String.eqb_eq in E. subst. exfalso. apply H. now left.
    + apply IH. intros Hin. apply H. now right.
Qed.

Lemma put_length (names : list string) (r : Row) (name : string) (v : Cell) :
  List.length (put names r name v) = List.length r.
Proof.
  revert r. induction names as [|n names IH]; intros [|x r]; simpl; try reflexivity.
  destruct (String.eqb n name); simpl; [reflexivity | now rewrite IH].
Qed.

Lemma get_put_same (names : list string) (r : Row) (name : string) (v : Cell) :
  In name names -> List.length r = List.length names ->
  get names (put names r name v) name = v.
Proof.
  revert r. induction names as [|n names IH]; intros [|x r] Hin Hlen;
    simpl in *; try contradiction; try discriminate.
  destruct (String.eqb n name) eqn:E; simpl; [reflexivity|].
  apply IH; [|lia].
  destruct Hin as [->|Hin]; [|assumption].
  rewrite String.eqb_refl in E. discriminate.
Qed.

Lemma get_put_other (names : list string) (r : Row) (name m : string) (v : Cell) :
  name <> m -> get names (put names r name v) m = get names r m.
Proof.
  intros Hne. revert r.
  induction names as [|n names IH]; intros [|x r]; simpl; try reflexivity.
  destruct (String.eqb n name) eqn:E; simpl.
  - apply String.eqb_eq in E. subst n.
    destruct (String.eqb name m) eqn:E2; [|reflexivity].
    apply String.eqb_eq in E2. contradiction.
  - destruct (String.eqb n m); [reflexivity | apply IH].
Qed.

Lemma get_app_new (names : list string) (r : Row) (name : string) (v : Cell) :
  ~ In name names -> List.length r = List.length names ->
  get (names ++ [name]) (r ++ [v]) name = v.
Proof.
  revert r. induction names as [|n names IH]; intros [|x r] Hin Hlen;
    simpl in *; try discriminate.
  - now rewrite String.eqb_refl.
  - destruct (String.eqb n name) eqn:E.
    + apply String.eqb_eq in E. subst. exfalso. apply Hin. now left.
    + apply IH; [|lia]. intros H. apply Hin. now right.
Qed.

Lemma get_app_old (names : list string) (r : Row) (name m : string) (v : Cell) :
  name <> m -> List.length r = List.length names ->
  get (names ++ [name]) (r ++ [v]) m = get names r m.
Proof.
  intros Hne. revert r.
  induction names as [|n names IH]; intros [|x r] Hlen;
    simpl in *; try discriminate.
  - destruct (String.eqb name m) eqn:E; [|reflexivity].
    apply String.eqb_eq in E. contradiction.
  - destruct (String.eqb n m); [reflexivity|]. apply IH. lia.
Qed.

Lemma get_project (names wanted : list string) (r : Row) (m : string) :
  get wanted (project names r wanted) m
  = if mem m wanted then get names r m else None.
Proof.
  unfold project. induction wanted as [|w wanted IH]; simpl; [reflexivity|].
  rewrite String.eqb_sym.
  destruct (String.eqb m w) eqn:E; simpl.
  - apply String.eqb_eq in E. now subst.
  - apply IH.
Qed.

Lemma project_length (names wanted : list string) (r : Row) :
  List.length (project names r wanted) = List.length wanted.
Proof. unfold project. apply length_map. Qed.

Lemma column_length (df : DataFrame) (name : string) :
  List.length (column df name) = List.length (rows df).
Proof. unfold column. apply length_map. Qed.

(** ** Strings *)

Lemma take_prefix (n : nat) (s : string) : prefix (take n s) s = true.
Proof.
  unfold take. revert n. induction s as [|c s IH]; intros [|n]; simpl; try reflexivity.
  destruct (ascii_dec c c) as [_|Hne]; [apply IH | now elim Hne].
Qed.

Lemma take_all (n : nat) (s : string) :
  String.length s <= n -> take n s = s.
Proof.
  unfold take. revert n. induction s as [|c s IH]; intros [|n] H; simpl in *;
    try reflexivity; try lia.
  f_equal. apply IH. lia.
Qed.



Lemma append_length (a b : string) :
  String.length (a ++ b)%string = String.length a + String.length b.
Proof. induction a; simpl; [reflexivity | now rewrite IHa]. Qed.


(** ** Assigning and adding columns *)

Lemma has_column_In (df : DataFrame) (n : string) :
  has_column df n = true <-> In n (columns df).
Proof. apply mem_In. Qed.

Lemma map_combine_r {A B C : Type} (g : A * B -> C) (h : B -> C)
      (P : A -> Prop) (l : list A) (s : list B) :
  List.length s = List.length l -> Forall P l ->
  (forall a b, P a -> g (a, b) = h b) ->
  map g (combine l s) = map h s.
Proof.
  intros Hlen HP Hg. revert s Hlen.
  induction HP as [|a l Ha HP IH]; intros [|b s] Hlen; simpl in *;
    try reflexivity; try discriminate.
  rewrite Hg by assumption. f_equal. apply IH. lia.
Qed.

Lemma map_combine_l {A B C : Type} (g : A * B -> C) (h : A -> C)
      (P : A -> Prop) (l : list A) (s : list B) :
  List.length s = List.length l -> Forall P l ->
  (forall a b, P a -> g (a, b) = h a) ->
  map g (combine l s) = map h l.
Proof.
  intros Hlen HP Hg. revert s Hlen.
  induction HP as [|a l Ha HP IH]; intros [|b s] Hlen; simpl in *;
    try reflexivity; try discriminate.
  rewrite Hg by assumption. f_equal. apply IH. lia.
Qed.

Section Setitem.
Import Pandas.
Variables (df : DataFrame) (n : string) (s : Series).
Hypothesis Hrect : rectangular df = true.
Hypothesis Hlen : List.length s = List.length (rows df).

Lemma setitem_has (m : string) :
  has_column (setitem df n s) m = has_column df m || String.eqb m n.
Proof.
  unfold setitem. destruct (has_column df n) eqn:E; unfold has_column in *; simpl.
  - destruct (String.eqb m n) eqn:Em; [|now rewrite orb_false_r].
    apply String.eqb_eq in Em. subst. now rewrite E.
  - rewrite mem_app. simpl. now rewrite orb_false_r.
Qed.

Lemma setitem_column_same : column (setitem df n s) n = s.
Proof.
  apply rectangular_Forall in Hrect.
  unfold setitem, column. destruct (has_column df n) eqn:E; simpl; rewrite map_map.
  - rewrite <- (map_id s) at 2.
    apply map_combine_r with (P := fun r => List.length r = List.length (columns df));
      try assumption.
    intros r v Hr. simpl. apply get_put_same; [|assumption].
    now apply has_column_In.
  - rewrite <- (map_id s) at 2.
    apply map_combine_r with (P := fun r => List.length r = List.length (columns df));
      try assumption.
    intros r v Hr. simpl. apply get_app_new; [|assumption].
    apply mem_false. exact E.
Qed.

Lemma setitem_column_other (m : string) :
  n <> m -> column (setitem df n s) m = column df m.
Proof.
  intros Hne. apply rectangular_Forall in Hrect.
  unfold setitem, column. destruct (has_column df n) eqn:E; simpl; rewrite map_map.
  - apply map_combine_l with (P := fun _ => True); try assumption.
    + apply Forall_forall. trivial.
    + intros r v _. simpl. now apply get_put_other.
  - apply map_combine_l with (P := fun r => List.length r = List.length (columns df));
      try assumption.
    intros r v Hr. simpl. now apply get_app_old.
Qed.

Lemma setitem_rows_length :
  List.length (rows (setitem df n s)) = List.length (rows df).
Proof.
  unfold setitem. destruct (has_column df n); simpl;
    rewrite length_map, length_combine; lia.
Qed.

Lemma setitem_rectangular : rectangular (setitem df n s) = true.
Proof.
  apply rectangular_Forall. apply rectangular_Forall in Hrect.
  unfold setitem. destruct (has_column df n); simpl;
    apply Forall_forall; intros r Hr; apply in_map_iff in Hr;
    destruct Hr as [[r0 v] [<- Hin]]; apply in_combine_l in Hin;
    rewrite Forall_forall in Hrect; specialize (Hrect r0 Hin); simpl.
  - now rewrite put_length.
  - rewrite !length_app. simpl. lia.
Qed.

End Setitem.

Section WithColumn.
Import Snowpark.
Variables (df out : DataFrame) (n : string) (e : Column).
Hypothesis Hout : with_column df n e = inr out.

Lemma with_column_columns :
  columns out = filter (fun c => negb (String.eqb c n)) (columns df) ++ [n].
Proof.
  unfold with_column in Hout. destruct (resolves df e); [|discriminate].
  injection Hout as <-. reflexivity.
Qed.

Lemma with_column_has (m : string) :
  has_column out m = has_column df m || String.eqb m n.
Proof.
  unfold has_column. rewrite with_column_columns, mem_app, mem_filter_ne. simpl.
  destruct (mem m (columns df)), (String.eqb m n); reflexivity.
Qed.

Lemma with_column_column_same :
  column out n = map (fun r => eval (columns df) r e) (rows df).
Proof.
  unfold with_column in Hout. destruct (resolves df e); [|discriminate].
  injection Hout as <-. unfold column. simpl. rewrite map_map.
  apply map_ext. intros r. apply get_app_new.
  - intros Hin. apply filter_In in Hin. destruct Hin as [_ Hin].
    now rewrite String.eqb_refl in Hin.
  - apply project_length.
Qed.

Lemma with_column_column_other (m : string) :
  n <> m -> column out m = column df m.
Proof.
  intros Hne.
  unfold with_column in Hout. destruct (resolves df e); [|discriminate].
  injection Hout as <-. unfold column. simpl. rewrite map_map.
  apply map_ext. intros r.
  rewrite get_app_old by (try assumption; apply project_length).
  rewrite get_project, mem_filter_ne.
  assert (String.eqb m n = false) as ->
      by (apply String.eqb_neq; congruence).
  rewrite andb_true_r. destruct (mem m (columns df)) eqn:E; [reflexivity|].
  symmetry. apply get_absent. now apply mem_false.
Qed.

End WithColumn.

Lemma with_column_ok (df : DataFrame) (n : string) (e : Snowpark.Column) :
  Snowpark.resolves df e = true ->
  exists out, Snowpark.with_column df n e = inr out.
Proof.
  intros H. unfold Snowpark.with_column. rewrite H. eexists. reflexivity.
Qed.

Lemma with_column_fails (df : DataFrame) (n : string) (e : Snowpark.Column) :
  Snowpark.resolves df e = false ->
  Snowpark.with_column df n e = inl (SnowparkSQLException "invalid identifier").
Proof. intros H. unfold Snowpark.with_column. now rewrite H. Qed.

Lemma forall2_prefix_take (k : nat) (s : list Cell) :
  Forall2 prefix_cell (map (option_map (take k)) s) s.
Proof.
  induction s as [|[x|] s IH]; simpl; constructor; try assumption.
  - simpl. apply take_prefix.
  - exact I.
Qed.

(** ** Table names *)

(** C10.  [build_table_name] takes an empty database or schema for an absent
    one, and leaves the database out whenever the schema is absent or empty:
    with any database [d], the name of table [t] under no schema, and under
    the empty schema, is [t] itself.  The three Snowpark files agree. *)
Theorem build_table_name_without_schema (t : string) (d : option string) :
  Root.build_table_name t d None = t /\
  Root.build_table_name t d (Some "") = t /\
  Notebook.build_table_name t d None = t /\
  Notebook.build_table_name t d (Some "") = t /\
  SnowflakeTransform.build_table_name t d None = t /\
  SnowflakeTransform.build_table_name t d (Some "") = t /\
  (forall s, build_table_name t (Some "") s = build_table_name t None s) /\
  build_table_name t d (Some "") = build_table_name t d None.
Proof.
  unfold Root.build_table_name, Notebook.build_table_name,
    SnowflakeTransform.build_table_name, build_table_name.
  repeat split; try (destruct (truthy d); reflexivity).
Qed.

(** ** The identifier normaliser *)


(** The two derived columns of the notebook are always computed once the
    frame has [API14]. *)
Lemma notebook_derived (df1 : DataFrame) :
  has_column df1 "API14" = true ->
  exists df2 df3,
    Snowpark.with_column df1 "API12"
      (Snowpark.substring (Snowpark.col "API14") 1 12) = inr df2 /\
    Snowpark.with_column df2 "API10"
      (Snowpark.substring (Snowpark.col "API14") 1 10) = inr df3 /\
    has_column df2 "API14" = true.
Proof.
  intros H.
  destruct (with_column_ok df1 "API12"
              (Snowpark.substring (Snowpark.col "API14") 1 12)) as [df2 H2].
  { unfold Snowpark.resolves. simpl. now rewrite H. }
  assert (H14 : has_column df2 "API14" = true).
  { rewrite (with_column_has _ _ _ _ H2). now rewrite H. }
  destruct (with_column_ok df2 "API10"
              (Snowpark.substring (Snowpark.col "API14") 1 10)) as [df3 H3].
  { unfold Snowpark.resolves. simpl. now rewrite H14. }
  now exists df2, df3.
Qed.

(** The first step of the notebook normaliser, when the frame has an
    identifier column. *)
Lemma notebook_api14 (df : DataFrame) :
  carries_identifier df = true ->
  exists df1,
    (if negb (has_column df "API14") then
       if has_column df "API" then
         Snowpark.with_column df "API14"
           (Snowpark.lpad (Snowpark.col "API") 14 (Snowpark.lit "0"))
       else if has_column df "APINumber" then
         Snowpark.with_column df "API14"
           (Snowpark.lpad (Snowpark.col "APINumber") 14 (Snowpark.lit "0"))
       else raise (KeyError Notebook.no_api_column)
     else ok df) = inr df1
    /\ has_column df1 "API14" = true
    /\ column df1 "API14" = api14_source snowpark_pad df.
Proof.
  unfold carries_identifier, api14_source. intros H.
  destruct (has_column df "API14") eqn:E14; simpl.
  - exists df. now repeat split.
  - destruct (has_column df "API") eqn:EA.
    + destruct (with_column_ok df "API14"
                  (Snowpark.lpad (Snowpark.col "API") 14 (Snowpark.lit "0")))
        as [df1 H1].
      { unfold Snowpark.resolves. simpl. now rewrite EA. }
      exists df1. split; [assumption|]. split.
      * rewrite (with_column_has _ _ _ _ H1). now rewrite orb_true_r.
      * rewrite (with_column_column_same _ _ _ _ H1).
        unfold snowpark_pad, column. rewrite map_map. apply map_ext.
        intros r. simpl. now destruct (get (columns df) r "API").
    + destruct (has_column df "APINumber") eqn:EN; [|discriminate].
      destruct (with_column_ok df "API14"
                  (Snowpark.lpad (Snowpark.col "APINumber") 14 (Snowpark.lit "0")))
        as [df1 H1].
      { unfold Snowpark.resolves. simpl. now rewrite EN. }
      exists df1. split; [assumption|]. split.
      * rewrite (with_column_has _ _ _ _ H1). now rewrite orb_true_r.
      * rewrite (with_column_column_same _ _ _ _ H1).
        unfold snowpark_pad, column. rewrite map_map. apply map_ext.
        intros r. simpl. now destruct (get (columns df) r "APINumber").
Qed.



Lemma scripts_generate_returns (df : DataFrame) :
  carries_identifier df = true ->
  exists out, Scripts.generate_api_columns df = inr out.
Proof.
  unfold carries_identifier, Scripts.generate_api_columns. intros H.
  destruct (has_column df "API14"); simpl; [eexists; reflexivity|].
  destruct (has_column df "API"); simpl; [eexists; reflexivity|].
  destruct (has_column df "APINumber"); simpl; [eexists; reflexivity|].
  discriminate.
Qed.

Lemma notebook_generate_returns (df : DataFrame) :
  carries_identifier df = true ->
  exists out, Notebook.generate_api_columns df = inr out.
Proof.
  intros H. destruct (notebook_api14 df H) as (df1 & H1 & H14 & _).
  destruct (notebook_derived df1 H14) as (df2 & df3 & H2 & H3 & _).
  exists df3. unfold Notebook.generate_api_columns.
  rewrite H1. simpl. rewrite H2. simpl. exact H3.
Qed.


Lemma str_slice_length (k : nat) (df : DataFrame) (name : string) :
  List.length (Pandas.str_slice k (Pandas.getitem df name))
  = List.length (rows df).
Proof.
  unfold Pandas.str_slice, Pandas.getitem. now rewrite length_map, column_length.
Qed.

Lemma pandas_pad_length (df : DataFrame) (name : string) :
  List.length (Pandas.str_zfill 14 (Pandas.astype_str (Pandas.getitem df name)))
  = List.length (rows df).
Proof.
  unfold Pandas.str_zfill, Pandas.astype_str, Pandas.getitem.
  now rewrite !length_map, column_length.
Qed.

(** The two derived columns of the script, computed from a frame that has
    [API14]. *)
Lemma scripts_derived (df1 : DataFrame) :
  rectangular df1 = true ->
  has_column df1 "API14" = true ->
  let df2 := Pandas.setitem df1 "API12"
               (Pandas.str_slice 12 (Pandas.getitem df1 "API14")) in
  let df3 := Pandas.setitem df2 "API10"
               (Pandas.str_slice 10 (Pandas.getitem df2 "API14")) in
  has_column df3 "API14" = true /\
  has_column df3 "API12" = true /\
  has_column df3 "API10" = true /\
  column df3 "API14" = column df1 "API14" /\
  column df3 "API12" = map (option_map (take 12)) (column df1 "API14") /\
  column df3 "API10" = map (option_map (take 10)) (column df1 "API14").
Proof.
  intros Hrect H14 df2 df3.
  assert (L2 := str_slice_length 12 df1 "API14").
  assert (R2 : rectangular df2 = true) by now apply setitem_rectangular.
  assert (L3 := str_slice_length 10 df2 "API14").
  assert (C14 : column df2 "API14" = column df1 "API14").
  { apply setitem_column_other; [assumption | assumption | discriminate]. }
  repeat split.
  - unfold df3, df2. rewrite !setitem_has. now rewrite H14.
  - unfold df3, df2. rewrite !setitem_has. simpl. now rewrite orb_true_r.
  - unfold df3. rewrite setitem_has. simpl. now rewrite orb_true_r.
  - unfold df3. rewrite setitem_column_other; [assumption | assumption
                                               | assumption | discriminate].
  - unfold df3. rewrite setitem_column_other; [| assumption | assumption
                                               | discriminate].
    unfold df2. rewrite setitem_column_same by assumption. reflexivity.
  - unfold df3. rewrite setitem_column_same by assumption.
    unfold Pandas.str_slice, Pandas.getitem. now rewrite C14.
Qed.

Lemma scripts_normalises (df : DataFrame) :
  rectangular df = true -> carries_identifier df = true ->
  exists out, Scripts.generate_api_columns df = inr out
              /\ normalised pandas_pad df out.
Proof.
  intros Hrect Hc.
  assert (exists df1,
             (if negb (has_column df "API14") then
                if has_column df "API" then
                  ok (Pandas.setitem df "API14"
                        (Pandas.str_zfill 14
                           (Pandas.astype_str (Pandas.getitem df "API"))))
                else if has_column df "APINumber" then
                  ok (Pandas.setitem df "API14"
                        (Pandas.str_zfill 14
                           (Pandas.astype_str (Pandas.getitem df "APINumber"))))
                else raise (KeyError Scripts.no_api_column)
              else ok df) = inr df1
             /\ rectangular df1 = true
             /\ has_column df1 "API14" = true
             /\ column df1 "API14" = api14_source pandas_pad df)
    as (df1 & H1 & R1 & H14 & C14).
  { unfold carries_identifier, api14_source in *.
    destruct (has_column df "API14") eqn:E14; simpl.
    - exists df. now repeat split.
    - destruct (has_column df "API") eqn:EA.
      + eexists. split; [reflexivity|]. split; [|split].
        * apply setitem_rectangular; [assumption | apply pandas_pad_length].
        * rewrite setitem_has. now rewrite orb_true_r.
        * apply setitem_column_same; [assumption | apply pandas_pad_length].
      + destruct (has_column df "APINumber") eqn:EN; [|discriminate].
        eexists. split; [reflexivity|]. split; [|split].
        * apply setitem_rectangular; [assumption | apply pandas_pad_length].
        * rewrite setitem_has. now rewrite orb_true_r.
        * apply setitem_column_same; [assumption | apply pandas_pad_length]. }
  destruct (scripts_derived df1 R1 H14) as (A & B & C & D & E & F).
  eexists. split.
  - unfold Scripts.generate_api_columns. rewrite H1. reflexivity.
  - unfold normalised. rewrite D, E, F, C14.
    repeat split; try assumption; apply forall2_prefix_take.
Qed.

Lemma sql_substring_take (s : string) (k : nat) : sql_substring s 1 k = take k s.
Proof. reflexivity. Qed.

Lemma notebook_normalises (df : DataFrame) :
  carries_identifier df = true ->
  exists out, Notebook.generate_api_columns df = inr out
              /\ normalised snowpark_pad df out.
Proof.
  intros Hc. destruct (notebook_api14 df Hc) as (df1 & H1 & H14 & C14).
  destruct (notebook_derived df1 H14) as (df2 & df3 & H2 & H3 & H214).
  exists df3. split.
  - unfold Notebook.generate_api_columns. rewrite H1. simpl. rewrite H2. exact H3.
  - assert (D : column df3 "API14" = column df1 "API14").
    { rewrite (with_column_column_other _ _ _ _ H3) by discriminate.
      now rewrite (with_column_column_other _ _ _ _ H2) by discriminate. }
    assert (E : column df3 "API12" = map (option_map (take 12)) (column df1 "API14")).
    { rewrite (with_column_column_other _ _ _ _ H3) by discriminate.
      rewrite (with_column_column_same _ _ _ _ H2).
      unfold column. rewrite map_map. reflexivity. }
    assert (F : column df3 "API10" = map (option_map (take 10)) (column df1 "API14")).
    { rewrite (with_column_column_same _ _ _ _ H3).
      rewrite <- (with_column_column_other _ _ _ _ H2 "API14") by discriminate.
      unfold column. rewrite map_map. reflexivity. }
    unfold normalised. rewrite D, E, F, C14.
    repeat split; try apply forall2_prefix_take.
    + rewrite (with_column_has _ _ _ _ H3). now rewrite H214.
    + rewrite (with_column_has _ _ _ _ H3), (with_column_has _ _ _ _ H2).
      simpl. now rewrite orb_true_r.
    + rewrite (with_column_has _ _ _ _ H3). simpl. now rewrite orb_true_r.
Qed.


(** ** The padding policy *)








Lemma forall2_map_r {A B : Type} (P : A -> B -> Prop) (f : A -> B) (l : list A) :
  (forall a, P a (f a)) -> Forall2 P l (map f l).
Proof. intros H. induction l; simpl; constructor; auto. Qed.





(** In the script a sign in front keeps its place: the zeros come after
    it. *)
Lemma signed_identifier_is_padded_after_sign :
  Scripts.generate_api_columns signed_api
  = inr (mkDF ["API"; "API14"; "API12"; "API10"]
              [[Some "-5"; Some "-0000000000005";
                Some "-00000000000"; Some "-000000000"]])
  /\ ~ padded_as_specified (Some "-5") (Some "-0000000000005").
Proof.
  split; [reflexivity|].
  intros [H _]. specialize (H ltac:(simpl; lia)). discriminate.
Qed.


(** ** Union by name *)

Lemma cell_eqb_eq (a b : Cell) : cell_eqb a b = true <-> a = b.
Proof.
  destruct a as [x|], b as [y|]; simpl; try (split; congruence).
  rewrite String.eqb_eq. split; congruence.
Qed.

Lemma row_eqb_eq (a b : Row) : row_eqb a b = true <-> a = b.
Proof.
  revert b. induction a as [|x a IH]; intros [|y b]; simpl;
    try (split; congruence).
  rewrite andb_true_iff, cell_eqb_eq, IH. split.
  - intros [-> ->]. reflexivity.
  - intros H. injection H as -> ->. now split.
Qed.

Lemma dedup_In (l : list Row) (r : Row) : In r (Snowpark.dedup l) <-> In r l.
Proof.
  induction l as [|a l IH]; simpl; [reflexivity|].
  rewrite filter_In, IH, negb_true_iff. split.
  - intros [H | [H _]]; [now left | now right].
  - intros [H | H]; [now left|].
    destruct (row_eqb a r) eqn:E.
    + left. now apply row_eqb_eq.
    + right. now split.
Qed.

Lemma dedup_NoDup (l : list Row) : NoDup (Snowpark.dedup l).
Proof.
  induction l as [|a l IH]; simpl; constructor.
  - intros H. apply filter_In in H. destruct H as [_ H].
    apply negb_true_iff in H.
    assert (row_eqb a a = true) by now apply row_eqb_eq. congruence.
  - now apply NoDup_filter.
Qed.

Lemma find_missing_none (df2 : DataFrame) (names : list string) :
  find (fun c => negb (has_column df2 c)) names = None
  <-> incl names (columns df2).
Proof.
  split.
  - intros H c Hc. apply (find_none _ _ H) in Hc.
    apply negb_false_iff in Hc. now apply has_column_In.
  - intros H. destruct (find _ names) as [c|] eqn:E; [|reflexivity].
    apply find_some in E. destruct E as [Hc E].
    apply negb_true_iff in E. apply H, has_column_In in Hc. congruence.
Qed.

Lemma union_by_name_returns (df1 df2 : DataFrame) :
  distinct (columns df1) = true -> distinct (columns df2) = true ->
  (same_names df1 df2 <-> exists out, Snowpark.union_by_name df1 df2 = inr out).
Proof.
  intros D1 D2. apply distinct_NoDup in D1. apply distinct_NoDup in D2.
  unfold Snowpark.union_by_name, same_names. split.
  - intros H.
    assert (F : find (fun c => negb (has_column df2 c)) (columns df1) = None).
    { apply find_missing_none. intros c Hc. now apply H. }
    rewrite F.
    assert (L : List.length (columns df2) = List.length (columns df1)).
    { apply Permutation_length, NoDup_Permutation; try assumption.
      intros c. symmetry. apply H. }
    rewrite L, Nat.eqb_refl. eexists. reflexivity.
  - intros [out H].
    destruct (find _ (columns df1)) eqn:F; [discriminate|].
    apply find_missing_none in F.
    destruct (Nat.eqb_spec (List.length (columns df2)) (List.length (columns df1)))
      as [L|L]; [|discriminate].
    intros c. split; [apply F|].
    apply NoDup_length_incl; [assumption | lia | assumption].
  Qed.

Lemma union_by_name_result (df1 df2 out : DataFrame) :
  Snowpark.union_by_name df1 df2 = inr out ->
  columns out = columns df1 /\
  NoDup (rows out) /\
  forall r, In r (rows out) <->
            In r (rows df1)
            \/ exists r2, In r2 (rows df2)
                          /\ r = project (columns df2) r2 (columns df1).
Proof.
  unfold Snowpark.union_by_name.
  destruct (find _ (columns df1)); [discriminate|].
  destruct (Nat.eqb _ _); [|discriminate].
  intros H. injection H as <-. simpl. split; [reflexivity|]. split.
  - apply dedup_NoDup.
  - intros r. rewrite dedup_In, in_app_iff, in_map_iff. split.
    + intros [H | [r2 [E H]]]; [now left | right; now exists r2].
    + intros [H | [r2 [H E]]]; [now left | right; now exists r2].
Qed.

(** C2, as amended.  The union by name returns a record set exactly for two
    record sets with the same column names, in whatever order.  The result has
    the columns of the first set in their order, and its rows are, each once,
    the rows of the first set and the rows of the second arranged by column
    name in the order of the first.  [union_tables] of the two pipelines and
    the call in the notebook are this one operation. *)
Theorem union_tables_of_same_names (df1 df2 : DataFrame) :
  distinct (columns df1) = true ->
  distinct (columns df2) = true ->
  (same_names df1 df2 <-> exists out, Root.union_tables df1 df2 = inr out) /\
  (forall out, Root.union_tables df1 df2 = inr out ->
     columns out = columns df1 /\
     NoDup (rows out) /\
     forall r, In r (rows out) <->
               In r (rows df1)
               \/ exists r2, In r2 (rows df2)
                             /\ r = project (columns df2) r2 (columns df1)) /\
  SnowflakeTransform.union_tables df1 df2 = Root.union_tables df1 df2 /\
  Snowpark.union_by_name df1 df2 = Root.union_tables df1 df2.
Proof.
  intros D1 D2. unfold Root.union_tables, SnowflakeTransform.union_tables.
  split; [now apply union_by_name_returns|].
  split; [apply union_by_name_result|]. now split.
Qed.

Lemma union_tables_of_same_names_witness :
  (same_names set_a set_a' <-> exists out, Root.union_tables set_a set_a' = inr out) /\
  (forall out, Root.union_tables set_a set_a' = inr out ->
     columns out = columns set_a /\
     NoDup (rows out) /\
     forall r, In r (rows out) <->
               In r (rows set_a)
               \/ exists r2, In r2 (rows set_a')
                             /\ r = project (columns set_a') r2 (columns set_a)) /\
  SnowflakeTransform.union_tables set_a set_a' = Root.union_tables set_a set_a' /\
  Snowpark.union_by_name set_a set_a' = Root.union_tables set_a set_a'.
Proof. apply union_tables_of_same_names; reflexivity. Defined.

(** The union of [set_a] and [set_a'] holds their three different rows. *)
Lemma union_drops_repeated_rows :
  Root.union_tables set_a set_a'
  = inr (mkDF ["API14"; "WELL_NAME"]
              [[Some "00000000000001"; Some "Alpha 1"];
               [Some "00000000000002"; Some "Bravo 2"];
               [Some "00000000000003"; Some "Charlie 3"]]).
Proof. reflexivity. Qed.

(** C2 as it was stated fails on the example of the specification: the
    union of [set_a] and [set_b], whose columns differ, is refused. *)
Lemma union_of_different_columns_is_refused :
  Root.union_tables set_a set_b = inl (SnowparkColumnException "WELL_NAME")
  /\ ~ (exists out, Root.union_tables set_a set_b = inr out
                    /\ union_as_specified set_a set_b out).
Proof.
  split; [reflexivity|]. intros [out [H _]]. discriminate.
Qed.

(** ** Joins *)

Lemma renamer_none (to_rename : list string) (x : string) :
  Pandas.renamer to_rename None x = x.
Proof. reflexivity. Qed.

Lemma renamer_nil (suffix : option string) (x : string) :
  Pandas.renamer [] suffix x = x.
Proof. now destruct suffix. Qed.

Lemma map_same {A : Type} (f : A -> A) (l : list A) :
  (forall x, In x l -> f x = x) -> map f l = l.
Proof.
  induction l as [|a l IH]; intros H; simpl; [reflexivity|].
  rewrite H by now left. f_equal. apply IH. intros x Hx. apply H. now right.
Qed.

(** The labels of a merge whose left side has no suffix: the left labels are
    kept, the right labels that are also left labels get the suffix. *)
Lemma items_overlap_labels (left right ll rl : list string) (sfx : string) :
  Pandas.items_overlap_with_suffix left right (None, Some sfx) = inr (ll, rl) ->
  ll = left
  /\ rl = map (Pandas.renamer (filter (fun c => mem c right) left) (Some sfx))
              right.
Proof.
  unfold Pandas.items_overlap_with_suffix.
  destruct (filter (fun c => mem c right) left) as [|c0 to_rename] eqn:E.
  - intros H. injection H as <- <-. split; [reflexivity|].
    symmetry. apply map_same. intros. apply renamer_nil.
  - cbn [fst snd]. destruct (negb (truthy None) && negb (truthy (Some sfx)));
      [discriminate|].
    destruct (_ || _); [discriminate|].
    intros H. injection H as <- <-. split; [|reflexivity].
    apply map_same. intros. apply renamer_none.
Qed.

Lemma merge_inv (left right out : DataFrame) (on sfx : string) :
  Pandas.merge left right on (None, Some sfx) = inr out ->
  has_column left on = true /\
  has_column right on = true /\
  columns out
  = columns left
    ++ map (Pandas.renamer
              (filter (fun c => mem c (filter (fun c => negb (String.eqb c on))
                                              (columns right)))
                      (columns left))
              (Some sfx))
           (filter (fun c => negb (String.eqb c on)) (columns right)) /\
  rows out
  = flat_map (Pandas.merged_rows
                left right on
                (filter (fun c => negb (String.eqb c on)) (columns right)))
             (rows left).
Proof.
  unfold Pandas.merge. intros H.
  destruct (has_column left on); [|discriminate].
  destruct (has_column right on); [|discriminate]. simpl in H.
  destruct (Pandas.items_overlap_with_suffix _ _ _)
    as [e|[ll rl]] eqn:E; [discriminate|].
  apply items_overlap_labels in E. destruct E as [-> ->].
  simpl in H. injection H as <-. now repeat split.
Qed.


Lemma flat_map_blocks {A B : Type} (f : A -> list B) (P : A -> list B -> Prop)
      (l : list A) :
  (forall a, P a (f a)) ->
  exists blocks, flat_map f l = concat blocks /\ Forall2 P l blocks.
Proof.
  intros H. exists (map f l). split.
  - apply flat_map_concat_map.
  - apply forall2_map_r. exact H.
Qed.

Lemma flat_map_singletons {A B : Type} (f : A -> list B) (l : list A) :
  (forall a, List.length (f a) = 1) ->
  List.length (flat_map f l) = List.length l.
Proof.
  intros H. induction l as [|a l IH]; simpl; [reflexivity|].
  rewrite length_app, H, IH. reflexivity.
Qed.

(** With a key that occurs once at most, at most one row matches. *)
Lemma unique_key_matches (eq : Cell -> Cell -> bool) (key : Row -> Cell)
      (k : Cell) (sec : list Row) :
  (forall a b, eq a b = true -> a = b) ->
  NoDup (map key sec) ->
  List.length (filter (fun s => eq k (key s)) sec) <= 1.
Proof.
  intros Heq. induction sec as [|a sec IH]; intros Hnd; simpl; [lia|].
  inversion Hnd as [|x l Hnotin Hnd']; subst.
  destruct (eq k (key a)) eqn:E; [|now apply IH].
  apply Heq in E. subst k.
  assert (filter (fun s => eq (key a) (key s)) sec = []) as ->; [|simpl; lia].
  destruct (filter _ sec) as [|s l] eqn:F; [reflexivity|]. exfalso.
  assert (Hin : In s (filter (fun s => eq (key a) (key s)) sec))
    by (rewrite F; now left).
  apply filter_In in Hin. destruct Hin as [Hin Hs]. apply Heq in Hs.
  apply Hnotin. rewrite Hs. now apply in_map.
Qed.

Lemma sql_eq_eq (a b : Cell) : Snowpark.sql_eq a b = true -> a = b.
Proof.
  destruct a, b; simpl; try discriminate. intros H.
  apply String.eqb_eq in H. congruence.
Qed.

Lemma block_of_found (found : list Row) (payload : Row -> Row) (width : nat)
      (b : Row) :
  left_outer_block found payload width b
    (match found with
     | [] => [b ++ nulls width]
     | r :: l => map (fun s => b ++ payload s) (r :: l)
     end).
Proof.
  unfold left_outer_block. destruct found as [|s found]; repeat split;
    try congruence.
  simpl. now rewrite length_map.
Qed.

Lemma block_single (found : list Row) (payload : Row -> Row) (width : nat)
      (b : Row) :
  List.length found <= 1 ->
  List.length (match found with
               | [] => [b ++ nulls width]
               | r :: l => map (fun s => b ++ payload s) (r :: l)
               end) = 1.
Proof.
  destruct found as [|s [|s' found]]; simpl; intros; try reflexivity; lia.
Qed.

(** The script's join, once it returns, is a left outer join. *)
Lemma merge_left_outer (df sec out : DataFrame) (sfx : string) :
  Pandas.merge df sec "API14" (None, Some sfx) = inr out ->
  left_outer_join (Pandas.matching df sec "API14")
                  (fun s => project (columns sec) s (payload_names sec))
                  (List.length (payload_names sec)) (rows df) (rows out)
  /\ (NoDup (column sec "API14") ->
      List.length (rows out) = List.length (rows df)).
Proof.
  intros H. apply merge_inv in H. destruct H as (_ & _ & _ & ->). split.
  - apply flat_map_blocks. intros b. unfold Pandas.merged_rows.
    fold (payload_names sec). apply block_of_found.
  - intros Hnd. apply flat_map_singletons. intros b.
    unfold Pandas.merged_rows. apply block_single.
    apply unique_key_matches; [|exact Hnd].
    intros x y Hxy. now apply cell_eqb_eq.
Qed.

(** ** The renaming and the join of the notebook *)

Lemma get_skip (n : string) (names : list string) (v : Cell) (r : Row)
      (m : string) :
  n <> m -> get (n :: names) (v :: r) m = get names r m.
Proof.
  intros H. simpl. destruct (String.eqb n m) eqn:E; [|reflexivity].
  apply String.eqb_eq in E. contradiction.
Qed.

Lemma project_self (names : list string) (r : Row) :
  NoDup names -> List.length r = List.length names ->
  project names r names = r.
Proof.
  unfold project. revert r.
  induction names as [|n names IH]; intros [|v r] Hnd Hlen; simpl in *;
    try reflexivity; try discriminate.
  inversion Hnd as [|x l Hnotin Hnd']; subst.
  rewrite String.eqb_refl. f_equal.
  transitivity (map (get names r) names); [|apply IH; [assumption | lia]].
  apply map_ext_in. intros m Hm.
  destruct (String.eqb n m) eqn:E; [|reflexivity].
  apply String.eqb_eq in E. subst. contradiction.
Qed.

Lemma well_formed_parts (df : DataFrame) :
  well_formed df = true ->
  NoDup (columns df)
  /\ Forall (fun r => List.length r = List.length (columns df)) (rows df).
Proof.
  unfold well_formed. rewrite andb_true_iff, distinct_NoDup, rectangular_Forall.
  trivial.
Qed.










(** The two joins on the sample sets: the first well has two environmental
    rows and comes out twice; the second has none and comes out once, with
    missing values; the third, whose key is missing, meets the environmental
    row without a key in the script and nothing in the notebook. *)
Lemma script_join_env_sample :
  Scripts.join_env_columns base_wells env_wells = inr script_joined.
Proof. reflexivity. Qed.


Lemma notebook_join_env_sample :
  Notebook.join_env_columns ("av5t", "1p6k") base_wells env_wells
  = inr notebook_joined.
Proof. reflexivity. Qed.

(** ** Column names after a join *)

Lemma firstn_prefix {A : Type} (b t : list A) : firstn (List.length b) (b ++ t) = b.
Proof. induction b as [|x b IH]; simpl; [reflexivity | now rewrite IH]. Qed.

Lemma flat_map_extends (f : Row -> list Row) (base : list Row) :
  (forall b row, In row (f b) -> exists t, row = b ++ t) ->
  Forall (fun row => exists b, In b base /\ firstn (List.length b) row = b)
         (flat_map f base).
Proof.
  intros H. apply Forall_forall. intros row Hrow.
  apply in_flat_map in Hrow. destruct Hrow as [b [Hb Hrow]].
  destruct (H b row Hrow) as [t ->]. exists b. split; [assumption|].
  apply firstn_prefix.
Qed.


Lemma joined_rows_extend (left right : DataFrame) (lkey rkey : string)
      (b row : Row) :
  In row (Snowpark.joined_rows left right lkey rkey b) -> exists t, row = b ++ t.
Proof.
  unfold Snowpark.joined_rows. destruct (filter _ (rows right)).
  - intros [<- | []]. eexists. reflexivity.
  - intros H. apply in_map_iff in H. destruct H as [s [<- _]].
    eexists. reflexivity.
Qed.

Lemma renamer_overlap (left rest : list string) (sfx c : string) :
  In c rest ->
  Pandas.renamer (filter (fun x => mem x rest) left) (Some sfx) c
  = if mem c left then (c ++ sfx)%string else c.
Proof.
  intros Hc. unfold Pandas.renamer.
  assert (mem c (filter (fun x => mem x rest) left) = mem c left) as ->;
    [|reflexivity].
  destruct (mem c left) eqn:E.
  - apply mem_In. apply filter_In. split; [now apply mem_In|].
    now apply mem_In.
  - apply mem_false. intros H. apply filter_In in H. destruct H as [H _].
    apply mem_In in H. congruence.
Qed.




(** ** The key column after the notebook's join *)

Lemma select_own_columns (sec : DataFrame) (f : string -> string) :
  Snowpark.select sec (map (fun c => (Snowpark.col c, f c)) (columns sec))
  = inr (mkDF (map f (columns sec))
              (map (fun r => project (columns sec) r (columns sec)) (rows sec))).
Proof.
  unfold Snowpark.select.
  assert (forallb (fun ea => Snowpark.resolves sec (fst ea))
            (map (fun c => (Snowpark.col c, f c)) (columns sec)) = true) as ->.
  { apply forallb_forall. intros ea Hea. apply in_map_iff in Hea.
    destruct Hea as [c [<- Hc]]. unfold Snowpark.resolves. simpl.
    rewrite andb_true_r. now apply has_column_In. }
  unfold ok, project. f_equal. f_equal.
  - rewrite map_map. reflexivity.
  - apply map_ext. intros r. rewrite map_map. reflexivity.
Qed.

Lemma disambiguated_key_absent (common : list string) (prefix : string)
      (names : list string) :
  mem "API14" common = true ->
  (forall c, (prefix ++ c)%string <> "API14") ->
  mem "API14" (map (Snowpark.disambiguate common prefix) names) = false.
Proof.
  intros Hc Hp. apply mem_false. intros H. apply in_map_iff in H.
  destruct H as [c [E _]]. unfold Snowpark.disambiguate in E.
  destruct (mem c common) eqn:Ec.
  - now apply Hp in E.
  - subst c. congruence.
Qed.

Lemma disambiguated_key_present (common : list string) (prefix : string)
      (names : list string) :
  mem "API14" common = true -> In "API14" names ->
  In (prefix ++ "API14")%string (map (Snowpark.disambiguate common prefix) names).
Proof.
  intros Hc Hin. apply in_map_iff. exists "API14". split; [|assumption].
  unfold Snowpark.disambiguate. now rewrite Hc.
Qed.

(** A join of the notebook on [API14], when it returns, returns a frame with
    the key column of each side under a prefixed name, and no column called
    [API14]. *)
Lemma notebook_join_columns (rnd : string * string) (df sec out : DataFrame)
      (sfx : string) :
  (renamed <- Snowpark.select sec
                (map (fun c => (Snowpark.col c, Notebook.suffixed sfx c))
                     (columns sec)) ;;
   lkey <- Snowpark.getitem df "API14" ;;
   rkey <- Snowpark.getitem renamed "API14" ;;
   ok (Snowpark.join rnd df renamed lkey rkey)) = inr out ->
  has_column out "API14" = false
  /\ In (Snowpark.l_prefix rnd ++ "API14")%string (columns out)
  /\ In (Snowpark.r_prefix rnd ++ "API14")%string (columns out).
Proof.
  rewrite select_own_columns. cbn [bind].
  set (renamed := mkDF (map (Notebook.suffixed sfx) (columns sec)) _).
  unfold Snowpark.getitem.
  destruct (has_column df "API14") eqn:Hdf; [|discriminate]. cbn [bind ok].
  destruct (has_column renamed "API14") eqn:Hsec; [|discriminate].
  cbn [bind ok]. intros H. injection H as <-.
  unfold has_column in *. cbn [Snowpark.join columns] in *.
  set (names := columns renamed) in *.
  assert (Hc : mem "API14" (filter (fun c => mem c names) (columns df)) = true).
  { apply mem_In, filter_In. split; [now apply mem_In | exact Hsec]. }
  split; [|split].
  - rewrite mem_app.
    rewrite !disambiguated_key_absent; try assumption; try reflexivity;
      intros c; unfold Snowpark.l_prefix, Snowpark.r_prefix; simpl;
      discriminate.
  - apply in_or_app. left. apply disambiguated_key_present; [assumption|].
    now apply mem_In.
  - apply in_or_app. right. apply disambiguated_key_present; [assumption|].
    now apply mem_In.
Qed.

(** C9 in the notebook.  The join of the notebook on [API14], whenever it
    returns, returns a frame with one key column for each side, under the
    names [l_..._API14] and [r_..._API14], and no column called [API14]; the
    join that follows in the pipeline then fails on [df["API14"]]. *)
Theorem notebook_join_keeps_both_keys (rnd : string * string)
        (df env_df out : DataFrame) :
  Notebook.join_env_columns rnd df env_df = inr out ->
  has_column out "API14" = false
  /\ In (Snowpark.l_prefix rnd ++ "API14")%string (columns out)
  /\ In (Snowpark.r_prefix rnd ++ "API14")%string (columns out)
  /\ forall rnd2 rbc_df,
       Notebook.join_rbc_columns rnd2 out rbc_df
       = inl (SnowparkColumnException "API14").
Proof.
  intros H. apply notebook_join_columns in H. destruct H as (H1 & H2 & H3).
  repeat split; try assumption.
  intros rnd2 rbc_df. unfold Notebook.join_rbc_columns, Notebook.rbc_cols.
  rewrite select_own_columns. simpl. unfold Snowpark.getitem. now rewrite H1.
Qed.

Lemma notebook_join_keeps_both_keys_witness :
  has_column notebook_joined "API14" = false
  /\ In (Snowpark.l_prefix ("av5t", "1p6k") ++ "API14")%string
        (columns notebook_joined)
  /\ In (Snowpark.r_prefix ("av5t", "1p6k") ++ "API14")%string
        (columns notebook_joined)
  /\ forall rnd2 rbc_df,
       Notebook.join_rbc_columns rnd2 notebook_joined rbc_df
       = inl (SnowparkColumnException "API14").
Proof.
  exact (notebook_join_keeps_both_keys
           ("av5t", "1p6k") base_wells env_wells notebook_joined eq_refl).
Defined.

(** The notebook pipeline never returns a frame: when every step before it
    succeeds, the second join fails. *)
Lemma notebook_pipeline_fails (session : Snowpark.Session)
      (env_table rbc_table : string) (rnd1 rnd2 : string * string) :
  exists e,
    Notebook.transform_master_wells_table session env_table rbc_table rnd1 rnd2
    = inl e.
Proof.
  unfold Notebook.transform_master_wells_table.
  destruct (Snowpark.table session _) as [e|rb]; simpl; [now exists e|].
  destruct (Snowpark.table session env_table) as [e|env_df]; simpl; [now exists e|].
  destruct (Snowpark.table session rbc_table) as [e|rbc_df]; simpl; [now exists e|].
  destruct (Snowpark.union_by_name rb env_df) as [e|c1]; simpl; [now exists e|].
  destruct (Notebook.generate_api_columns c1) as [e|c2]; simpl; [now exists e|].
  destruct (Snowpark.with_column c2 _ _) as [e|c3]; simpl; [now exists e|].
  destruct (Notebook.join_env_columns rnd1 c3 env_df) as [e|c4] eqn:E; simpl;
    [now exists e|].
  apply notebook_join_keeps_both_keys in E. destruct E as (_ & _ & _ & E).
  rewrite E. eexists. reflexivity.
Qed.

(** In the script the join returns a frame with [API14] once. *)
Lemma script_join_has_one_key (df sec out : DataFrame) :
  distinct (columns df) = true ->
  Scripts.join_env_columns df sec = inr out ->
  count_occ string_dec (columns out) "API14" = 1.
Proof.
  intros Hd H. apply merge_inv in H. destruct H as (Hdf & _ & Hc & _).
  rewrite Hc, count_occ_app.
  assert (count_occ string_dec (columns df) "API14" = 1) as ->.
  { apply distinct_NoDup in Hd. apply has_column_In in Hdf.
    apply NoDup_count_occ' with (decA := string_dec) in Hdf; assumption. }
  assert (~ In "API14"
            (map (Pandas.renamer
                    (filter (fun c => mem c (payload_names sec)) (columns df))
                    (Some "_env")) (payload_names sec))) as Hn.
  { intros Hin. apply in_map_iff in Hin. destruct Hin as [c [E Hin]].
    unfold payload_names in Hin. apply filter_In in Hin as Hin'.
    destruct Hin' as [_ Hne]. rewrite renamer_overlap in E by assumption.
    destruct (mem c (columns df)).
    - assert (L : String.length c + 4 = 5)
        by (apply (f_equal String.length) in E; now rewrite append_length in E).
      destruct c as [|a [|b c]]; simpl in L; try lia.
      simpl in E. injection E; intros; discriminate.
    - subst c. discriminate. }
  apply (count_occ_not_In string_dec) in Hn. unfold payload_names in Hn.
  rewrite Hn. reflexivity.
Qed.

(** ** Two joins, in either order *)







Lemma filter_disjoint (l1 l2 : list string) :
  disjoint l1 l2 = true -> filter (fun c => mem c l2) l1 = [].
Proof.
  unfold disjoint. induction l1 as [|a l1 IH]; simpl; [reflexivity|].
  rewrite andb_true_iff, negb_true_iff. intros [-> H]. now apply IH.
Qed.

Lemma disjoint_app (l1 l1' l2 : list string) :
  disjoint (l1 ++ l1') l2 = disjoint l1 l2 && disjoint l1' l2.
Proof. unfold disjoint. apply forallb_app. Qed.


(** A merge of the script on [API14] with a set that shares no other name
    with the base returns, and renames nothing. *)
Lemma merge_disjoint (df sec : DataFrame) (sfx : string) :
  has_column df "API14" = true -> has_column sec "API14" = true ->
  disjoint (columns df) (payload_names sec) = true ->
  exists out,
    Pandas.merge df sec "API14" (None, Some sfx) = inr out
    /\ columns out = columns df ++ payload_names sec.
Proof.
  intros Hdf Hsec Hd. unfold Pandas.merge. rewrite Hdf, Hsec. simpl.
  fold (payload_names sec). unfold Pandas.items_overlap_with_suffix.
  rewrite filter_disjoint by assumption. simpl.
  eexists. split; reflexivity.
Qed.

Lemma bind_inr {A B : Type} (m : Result A) (k : A -> Result B) (b : B) :
  bind m k = inr b -> exists a, m = inr a /\ k a = inr b.
Proof.
  destruct m as [e|a]; simpl; [discriminate|]. intros H. now exists a.
Qed.




(** ** The three pipelines *)

(** C6, as amended.  The pipelines of [master_wells_transform.py] and of
    [notebooks/snowflake_transform.py] are one pipeline: the same union by
    name, the same derived columns, the same left join with the overrides on
    [API_WELL_NUMBER], and so the same result for every warehouse. *)
Theorem root_and_snowflake_pipelines_agree
        (session : Snowpark.Session) (rnd : string * string) :
  Root.transform_master_wells_table session rnd
  = SnowflakeTransform.transform_master_wells_table session rnd
  /\ (forall df1 df2,
        Root.union_tables df1 df2 = SnowflakeTransform.union_tables df1 df2)
  /\ (forall df, Root.derive_columns df = SnowflakeTransform.derive_columns df)
  /\ (forall l r on,
        Root.join_tables rnd l r on = SnowflakeTransform.join_tables rnd l r on)
  /\ (forall t d s,
        Root.build_table_name t d s = SnowflakeTransform.build_table_name t d s).
Proof. repeat split. Qed.

(** C6 as it was stated fails for the notebook pipeline, whose join is
    another join.  On the same base frame and the same overrides, the join of
    [master_wells_transform.py], on [API_WELL_NUMBER], finds no override and
    returns one row; the join of the notebook, on [API14], finds two and
    returns two rows. *)
Lemma notebook_joins_on_another_key :
  List.length
    (rows (Root.join_tables ("av5t", "1p6k") enhanced_sample overrides_sample
                            ("API_WELL_NUMBER", "API_WELL_NUMBER"))) = 1
  /\ exists out,
       Notebook.join_rbc_columns ("av5t", "1p6k") enhanced_sample
                                 overrides_sample = inr out
       /\ List.length (rows out) = 2.
Proof.
  split; [reflexivity|]. eexists. split; reflexivity.
Qed.

(** On the sample warehouse the first pipeline returns the joined frame and
    the notebook pipeline fails in its second join. *)
Lemma pipelines_on_sample_session :
  Root.transform_master_wells_table sample_session ("av5t", "1p6k")
  = inr (mkDF ["l_av5t_API14"; "WELL_NAME"; "l_av5t_API_WELL_NUMBER";
               "WELL_NAME_UPPER"; "r_1p6k_API14"; "r_1p6k_API_WELL_NUMBER";
               "OPERATOR"]
              [[Some "00000000000001"; Some "Alpha 1"; Some "42-001";
                Some "ALPHA 1"; None; None; None];
               [Some "00000000000002"; Some "Bravo 2"; Some "42-002";
                Some "BRAVO 2"; None; None; None]])
  /\ Notebook.transform_master_wells_table
       sample_session "RAW_ENV_PRISM_WELLS" "RBC_WELL_OVERRIDES"
       ("av5t", "1p6k") ("bq2x", "9kd0")
     = inl (SnowparkColumnException "API14").
Proof. split; reflexivity. Qed.

(** * Further properties of the code *)

(** ** One assignment, one added column *)

Lemma distinct_snoc (l : list string) (n : string) :
  distinct l = true -> mem n l = false -> distinct (l ++ [n]) = true.
Proof.
  rewrite !distinct_NoDup, mem_false. intros Hl Hn.
  apply NoDup_app; [assumption | repeat constructor; intros [] |].
  intros a Ha [<- | []]. contradiction.
Qed.

Lemma distinct_filter (f : string -> bool) (l : list string) :
  distinct l = true -> distinct (filter f l) = true.
Proof. rewrite !distinct_NoDup. apply NoDup_filter. Qed.

(** What one assignment [df[n] = s] of the script does to a frame. *)
Definition assigned (df df' : DataFrame) (n : string) : Prop :=
  rectangular df' = true
  /\ List.length (rows df') = List.length (rows df)
  /\ (forall m, n <> m -> column df' m = column df m)
  /\ (forall m, has_column df' m = has_column df m || String.eqb m n)
  /\ (distinct (columns df) = true -> distinct (columns df') = true).

Lemma setitem_assigned (df : DataFrame) (n : string) (s : Pandas.Series) :
  rectangular df = true -> List.length s = List.length (rows df) ->
  assigned df (Pandas.setitem df n s) n.
Proof.
  intros Hrect Hlen. unfold assigned. repeat split.
  - now apply setitem_rectangular.
  - now apply setitem_rows_length.
  - intros m Hm. now apply setitem_column_other.
  - intros m. apply setitem_has.
  - intros Hd. unfold Pandas.setitem.
    destruct (has_column df n) eqn:E; simpl; [assumption|].
    now apply distinct_snoc.
Qed.

Lemma assigned_trans (a b c : DataFrame) (n1 n2 : string) (m : string) :
  assigned a b n1 -> assigned b c n2 -> n1 <> m -> n2 <> m ->
  column c m = column a m
  /\ has_column c m = has_column a m.
Proof.
  intros (_ & _ & C1 & H1 & _) (_ & _ & C2 & H2 & _) N1 N2. split.
  - now rewrite C2, C1.
  - rewrite H2, H1.
    assert (String.eqb m n1 = false) as -> by (apply String.eqb_neq; congruence).
    assert (String.eqb m n2 = false) as -> by (apply String.eqb_neq; congruence).
    now rewrite !orb_false_r.
Qed.

(** The script's normaliser, when it returns, has made one to three
    assignments: [API14] unless the frame had it, then [API12], then
    [API10]. *)
Lemma scripts_generate_steps (df out : DataFrame) :
  rectangular df = true ->
  Scripts.generate_api_columns df = inr out ->
  exists df1 df2,
    (df1 = df /\ has_column df "API14" = true \/ assigned df df1 "API14")
    /\ rectangular df1 = true
    /\ List.length (rows df1) = List.length (rows df)
    /\ (distinct (columns df) = true -> distinct (columns df1) = true)
    /\ has_column df1 "API14" = true
    /\ assigned df1 df2 "API12"
    /\ assigned df2 out "API10".
Proof.
  intros Hrect H. unfold Scripts.generate_api_columns in H.
  apply bind_inr in H. destruct H as (df1 & H1 & H).
  unfold ok in H. injection H as <-.
  assert (S1 : (df1 = df /\ has_column df "API14" = true
                \/ assigned df df1 "API14")
               /\ has_column df1 "API14" = true).
  { destruct (has_column df "API14") eqn:E14; simpl in H1.
    - injection H1 as <-. split; [now left | assumption].
    - destruct (has_column df "API") eqn:EA.
      + injection H1 as <-. split.
        * right. apply setitem_assigned; [assumption | apply pandas_pad_length].
        * rewrite setitem_has. now rewrite orb_true_r.
      + destruct (has_column df "APINumber") eqn:EN; [|discriminate].
        injection H1 as <-. split.
        * right. apply setitem_assigned; [assumption | apply pandas_pad_length].
        * rewrite setitem_has. now rewrite orb_true_r. }
  destruct S1 as [S1 H14].
  assert (R1 : rectangular df1 = true
               /\ List.length (rows df1) = List.length (rows df)
               /\ (distinct (columns df) = true -> distinct (columns df1) = true)).
  { destruct S1 as [[-> _] | (A & B & _ & _ & D)]; now repeat split. }
  destruct R1 as (R1 & L1 & D1).
  exists df1,
    (Pandas.setitem df1 "API12"
       (Pandas.str_slice 12 (Pandas.getitem df1 "API14"))).
  split; [exact S1|]. split; [exact R1|]. split; [exact L1|].
  split; [exact D1|]. split; [exact H14|]. split.
  - apply setitem_assigned; [assumption | apply str_slice_length].
  - apply setitem_assigned; [|apply str_slice_length].
    apply setitem_rectangular; [assumption | apply str_slice_length].
Qed.

(** What one [with_column] of the notebook does to a frame. *)
Lemma with_column_added (df out : DataFrame) (n : string) (e : Snowpark.Column) :
  Snowpark.with_column df n e = inr out ->
  rectangular out = true
  /\ List.length (rows out) = List.length (rows df)
  /\ (forall m, n <> m -> column out m = column df m)
  /\ (forall m, has_column out m = has_column df m || String.eqb m n)
  /\ (distinct (columns df) = true -> distinct (columns out) = true).
Proof.
  intros H. split; [|split; [|split; [|split]]].
  - unfold Snowpark.with_column in H. destruct (Snowpark.resolves df e);
      [|discriminate]. injection H as <-.
    apply rectangular_Forall. simpl. apply Forall_forall. intros r Hr.
    apply in_map_iff in Hr. destruct Hr as [r0 [<- _]].
    now rewrite !length_app, project_length.
  - unfold Snowpark.with_column in H. destruct (Snowpark.resolves df e);
      [|discriminate]. injection H as <-. simpl. apply length_map.
  - intros m Hm. now apply (with_column_column_other df out n e H).
  - intros m. apply (with_column_has df out n e H).
  - intros Hd. rewrite (with_column_columns df out n e H).
    apply distinct_snoc; [now apply distinct_filter|].
    rewrite mem_filter_ne, String.eqb_refl. apply andb_false_r.
Qed.

(** The notebook's normaliser, when it returns, has added one to three
    columns. *)
Lemma notebook_generate_steps (df out : DataFrame) :
  Notebook.generate_api_columns df = inr out ->
  exists df1 df2,
    (df1 = df /\ has_column df "API14" = true
     \/ exists src,
         has_column df "API14" = false
         /\ Snowpark.with_column df "API14"
              (Snowpark.lpad (Snowpark.col src) 14 (Snowpark.lit "0")) = inr df1)
    /\ has_column df1 "API14" = true
    /\ Snowpark.with_column df1 "API12"
         (Snowpark.substring (Snowpark.col "API14") 1 12) = inr df2
    /\ Snowpark.with_column df2 "API10"
         (Snowpark.substring (Snowpark.col "API14") 1 10) = inr out.
Proof.
  intros H. unfold Notebook.generate_api_columns in H.
  apply bind_inr in H. destruct H as (df1 & H1 & H).
  apply bind_inr in H. destruct H as (df2 & H2 & H3).
  exists df1, df2.
  assert (S1 : (df1 = df /\ has_column df "API14" = true
                \/ exists src,
                    has_column df "API14" = false
                    /\ Snowpark.with_column df "API14"
                         (Snowpark.lpad (Snowpark.col src) 14 (Snowpark.lit "0"))
                       = inr df1)
               /\ has_column df1 "API14" = true).
  { destruct (has_column df "API14") eqn:E14; simpl in H1.
    - injection H1 as <-. split; [now left | assumption].
    - destruct (has_column df "API") eqn:EA.
      + split; [right; now exists "API"|].
        rewrite (with_column_has _ _ _ _ H1). now rewrite orb_true_r.
      + destruct (has_column df "APINumber") eqn:EN; [|discriminate].
        split; [right; now exists "APINumber"|].
        rewrite (with_column_has _ _ _ _ H1). now rewrite orb_true_r. }
  destruct S1 as [S1 H14]. now repeat split.
Qed.

(** ** The normaliser: what it keeps, how long the identifiers are *)

Lemma other_column_ne (m : string) :
  other_column m -> "API14" <> m /\ "API12" <> m /\ "API10" <> m.
Proof. intros (A & B & C). repeat split; congruence. Qed.

Lemma scripts_keeps_the_rest (df out : DataFrame) :
  rectangular df = true ->
  Scripts.generate_api_columns df = inr out -> keeps_the_rest df out.
Proof.
  intros Hrect H.
  destruct (scripts_generate_steps df out Hrect H)
    as (df1 & df2 & S1 & R1 & L1 & _ & _ & A2 & A3).
  split.
  - destruct A2 as (_ & L2 & _), A3 as (_ & L3 & _). congruence.
  - intros m Hm. apply other_column_ne in Hm. destruct Hm as (N14 & N12 & N10).
    destruct (assigned_trans df1 df2 out "API12" "API10" m A2 A3 N12 N10)
      as [C H'].
    destruct S1 as [[-> _] | (_ & _ & C1 & H1 & _)]; [now split|].
    split.
    + rewrite H', H1.
      assert (String.eqb m "API14" = false) as ->
          by (apply String.eqb_neq; congruence).
      apply orb_false_r.
    + rewrite C. now apply C1.
Qed.

Lemma notebook_keeps_the_rest (df out : DataFrame) :
  Notebook.generate_api_columns df = inr out -> keeps_the_rest df out.
Proof.
  intros H.
  destruct (notebook_generate_steps df out H) as (df1 & df2 & S1 & _ & H2 & H3).
  apply with_column_added in H2. destruct H2 as (_ & L2 & C2 & B2 & _).
  apply with_column_added in H3. destruct H3 as (_ & L3 & C3 & B3 & _).
  assert (S : List.length (rows df1) = List.length (rows df)
              /\ forall m, "API14" <> m ->
                           column df1 m = column df m
                           /\ has_column df1 m = has_column df m).
  { destruct S1 as [[-> _] | (src & _ & H1)]; [now split|].
    apply with_column_added in H1. destruct H1 as (_ & L1 & C1 & B1 & _).
    split; [assumption|]. intros m Hm. split; [now apply C1|].
    rewrite B1.
    assert (String.eqb m "API14" = false) as ->
        by (apply String.eqb_neq; congruence).
    apply orb_false_r. }
  destruct S as [L1 S]. split; [congruence|].
  intros m Hm. apply other_column_ne in Hm. destruct Hm as (N14 & N12 & N10).
  destruct (S m N14) as [C1 B1]. split.
  - rewrite B3, B2, B1.
    assert (String.eqb m "API12" = false) as ->
        by (apply String.eqb_neq; congruence).
    assert (String.eqb m "API10" = false) as ->
        by (apply String.eqb_neq; congruence).
    now rewrite !orb_false_r.
  - now rewrite C3, C2, C1.
Qed.

(** The normaliser drops no row and adds none, and leaves every column other
    than [API14], [API12] and [API10] as it was: the same names are there,
    with the same values. *)
Theorem normaliser_keeps_the_rest (df : DataFrame) :
  rectangular df = true ->
  carries_identifier df = true ->
  (exists out, Scripts.generate_api_columns df = inr out
               /\ keeps_the_rest df out) /\
  (exists out, Notebook.generate_api_columns df = inr out
               /\ keeps_the_rest df out).
Proof.
  intros Hrect Hc. split.
  - destruct (scripts_generate_returns df Hc) as [out H]. exists out.
    split; [assumption | now apply scripts_keeps_the_rest].
  - destruct (notebook_generate_returns df Hc) as [out H]. exists out.
    split; [assumption | now apply notebook_keeps_the_rest].
Qed.

Lemma normaliser_keeps_the_rest_witness :
  (exists out, Scripts.generate_api_columns wells_by_api = inr out
               /\ keeps_the_rest wells_by_api out) /\
  (exists out, Notebook.generate_api_columns wells_by_api = inr out
               /\ keeps_the_rest wells_by_api out).
Proof. apply normaliser_keeps_the_rest; reflexivity. Defined.

(** The normaliser keeps a frame well formed: the column names stay
    pairwise distinct and every row has one cell per column. *)
Theorem normaliser_keeps_well_formed (df : DataFrame) :
  well_formed df = true ->
  carries_identifier df = true ->
  (exists out, Scripts.generate_api_columns df = inr out
               /\ well_formed out = true) /\
  (exists out, Notebook.generate_api_columns df = inr out
               /\ well_formed out = true).
Proof.
  unfold well_formed. rewrite andb_true_iff. intros [Hd Hrect] Hc. split.
  - destruct (scripts_generate_returns df Hc) as [out H]. exists out.
    split; [assumption|].
    destruct (scripts_generate_steps df out Hrect H)
      as (df1 & df2 & _ & _ & _ & D1 & _ & A2 & A3).
    destruct A2 as (_ & _ & _ & _ & D2), A3 as (R3 & _ & _ & _ & D3).
    rewrite R3, D3; auto.
  - destruct (notebook_generate_returns df Hc) as [out H]. exists out.
    split; [assumption|].
    destruct (notebook_generate_steps df out H) as (df1 & df2 & S1 & _ & H2 & H3).
    apply with_column_added in H2. destruct H2 as (_ & _ & _ & _ & D2).
    apply with_column_added in H3. destruct H3 as (R3 & _ & _ & _ & D3).
    rewrite R3, D3; [reflexivity|]. apply D2.
    destruct S1 as [[-> _] | (src & _ & H1)]; [assumption|].
    apply with_column_added in H1. now apply H1.
Qed.

Lemma normaliser_keeps_well_formed_witness :
  (exists out, Scripts.generate_api_columns wells_by_api = inr out
               /\ well_formed out = true) /\
  (exists out, Notebook.generate_api_columns wells_by_api = inr out
               /\ well_formed out = true).
Proof. apply normaliser_keeps_well_formed; reflexivity. Defined.

Lemma take_take (n m : nat) (s : string) :
  n <= m -> take n (take m s) = take n s.
Proof.
  unfold take. revert n m. induction s as [|c s IH]; intros [|n] [|m] H;
    simpl; try reflexivity; try lia.
  f_equal. apply IH. lia.
Qed.

(** [API10] is also the first ten characters of [API12]. *)
Theorem api10_is_a_prefix_of_api12 (df : DataFrame) :
  rectangular df = true ->
  carries_identifier df = true ->
  (exists out, Scripts.generate_api_columns df = inr out
               /\ column out "API10"
                  = map (option_map (take 10)) (column out "API12")
               /\ Forall2 prefix_cell (column out "API10") (column out "API12")) /\
  (exists out, Notebook.generate_api_columns df = inr out
               /\ column out "API10"
                  = map (option_map (take 10)) (column out "API12")
               /\ Forall2 prefix_cell (column out "API10") (column out "API12")).
Proof.
  intros Hrect Hc.
  assert (E : forall l : list Cell,
             map (option_map (take 10)) l
             = map (option_map (take 10)) (map (option_map (take 12)) l)).
  { intros l. rewrite map_map. apply map_ext. intros [s|]; simpl; [|reflexivity].
    now rewrite take_take by lia. }
  split.
  - destruct (scripts_normalises df Hrect Hc) as (out & H & N).
    destruct N as (_ & _ & _ & _ & E12 & E10 & _).
    exists out. split; [assumption|].
    assert (column out "API10" = map (option_map (take 10)) (column out "API12"))
      as -> by (rewrite E10, E12; apply E).
    split; [reflexivity | apply forall2_prefix_take].
  - destruct (notebook_normalises df Hc) as (out & H & N).
    destruct N as (_ & _ & _ & _ & E12 & E10 & _).
    exists out. split; [assumption|].
    assert (column out "API10" = map (option_map (take 10)) (column out "API12"))
      as -> by (rewrite E10, E12; apply E).
    split; [reflexivity | apply forall2_prefix_take].
Qed.

Lemma api10_is_a_prefix_of_api12_witness :
  (exists out, Scripts.generate_api_columns wells_by_api = inr out
               /\ column out "API10"
                  = map (option_map (take 10)) (column out "API12")
               /\ Forall2 prefix_cell (column out "API10") (column out "API12")) /\
  (exists out, Notebook.generate_api_columns wells_by_api = inr out
               /\ column out "API10"
                  = map (option_map (take 10)) (column out "API12")
               /\ Forall2 prefix_cell (column out "API10") (column out "API12")).
Proof. apply api10_is_a_prefix_of_api12; reflexivity. Defined.

(** ** How long the identifiers are *)







(** ** Normalising twice *)

Lemma put_get_same (names : list string) (r : Row) (n : string) :
  put names r n (get names r n) = r.
Proof.
  revert r. induction names as [|a names IH]; intros [|x r]; simpl;
    try reflexivity.
  destruct (String.eqb a n); [reflexivity | now rewrite IH].
Qed.

Lemma setitem_own_column (df : DataFrame) (n : string) :
  has_column df n = true -> Pandas.setitem df n (column df n) = df.
Proof.
  intros H. unfold Pandas.setitem. rewrite H. destruct df as [names rs].
  unfold column. simpl. f_equal.
  induction rs as [|r rs IH]; simpl; [reflexivity|].
  now rewrite put_get_same, IH.
Qed.

(** The script's normaliser changes nothing in a frame it has normalised. *)
Theorem script_normaliser_is_idempotent (df : DataFrame) :
  rectangular df = true ->
  carries_identifier df = true ->
  exists out,
    Scripts.generate_api_columns df = inr out
    /\ Scripts.generate_api_columns out = inr out.
Proof.
  intros Hrect Hc.
  destruct (scripts_normalises df Hrect Hc) as (out & H & N).
  destruct N as (B14 & B12 & B10 & _ & E12 & E10 & _).
  exists out. split; [assumption|].
  unfold Scripts.generate_api_columns. rewrite B14. cbn [negb bind ok].
  unfold Pandas.str_slice, Pandas.getitem.
  rewrite <- E12, setitem_own_column by assumption.
  rewrite <- E10, setitem_own_column by assumption. reflexivity.
Qed.

Lemma script_normaliser_is_idempotent_witness :
  exists out,
    Scripts.generate_api_columns wells_by_api = inr out
    /\ Scripts.generate_api_columns out = inr out.
Proof. apply script_normaliser_is_idempotent; reflexivity. Defined.

(** ** Frames with the same columns are the same frame *)

Lemma row_ext (names : list string) (r r' : Row) :
  NoDup names ->
  List.length r = List.length names -> List.length r' = List.length names ->
  (forall n, In n names -> get names r n = get names r' n) ->
  r = r'.
Proof.
  revert r r'. induction names as [|a names IH]; intros [|v r] [|v' r'] Hnd L L' H;
    simpl in *; try reflexivity; try discriminate.
  inversion Hnd as [|x l Hnotin Hnd']; subst.
  f_equal.
  - specialize (H a (or_introl eq_refl)). now rewrite String.eqb_refl in H.
  - apply IH; try assumption; try lia.
    intros n Hn. specialize (H n (or_intror Hn)).
    destruct (String.eqb a n) eqn:E; [|assumption].
    apply String.eqb_eq in E. subst. contradiction.
Qed.

Lemma rows_ext (names : list string) (ra rb : list Row) :
  NoDup names ->
  Forall (fun r => List.length r = List.length names) ra ->
  Forall (fun r => List.length r = List.length names) rb ->
  List.length ra = List.length rb ->
  (forall m, In m names ->
             map (fun r => get names r m) ra = map (fun r => get names r m) rb) ->
  ra = rb.
Proof.
  intros Hnd Ha. revert rb.
  induction Ha as [|r ra Hr Ha IH]; intros [|r' rb] Hb L H; simpl in *;
    try reflexivity; try discriminate.
  inversion Hb as [|x l Hr' Hb']; subst. f_equal.
  - apply (row_ext names); try assumption.
    intros n Hn. specialize (H n Hn). now injection H.
  - apply IH; try assumption; [lia|].
    intros m Hm. specialize (H m Hm). now injection H.
Qed.

Lemma frame_ext (a b : DataFrame) :
  columns a = columns b ->
  distinct (columns a) = true ->
  rectangular a = true -> rectangular b = true ->
  List.length (rows a) = List.length (rows b) ->
  (forall m, In m (columns a) -> column a m = column b m) ->
  a = b.
Proof.
  destruct a as [ca ra], b as [cb rb]. unfold column. simpl.
  intros <- Hd Ra Rb L H.
  apply rectangular_Forall in Ra. apply rectangular_Forall in Rb. simpl in *.
  f_equal. apply (rows_ext ca); try assumption. now apply distinct_NoDup.
Qed.

Lemma filter_absorb {A : Type} (f : A -> bool) (l : list A) :
  (forall x, In x l -> f x = true) -> filter f l = l.
Proof.
  induction l as [|a l IH]; intros H; simpl; [reflexivity|].
  rewrite H by now left. f_equal. apply IH. intros x Hx. apply H. now right.
Qed.

(** The columns of a frame the notebook has normalised: the columns it had
    with [API14], without [API12] and [API10], then [API12], then [API10];
    the same after a second run. *)
Lemma notebook_normalised_columns (df out : DataFrame) :
  Notebook.generate_api_columns df = inr out ->
  exists kept,
    columns out = (kept ++ ["API12"]) ++ ["API10"]
    /\ (forall c, In c kept -> c <> "API12" /\ c <> "API10").
Proof.
  intros H.
  destruct (notebook_generate_steps df out H) as (df1 & df2 & _ & _ & H2 & H3).
  apply with_column_columns in H2. apply with_column_columns in H3.
  exists (filter (fun c => negb (String.eqb c "API10"))
                 (filter (fun c => negb (String.eqb c "API12")) (columns df1))).
  split.
  - rewrite H3, H2, filter_app. reflexivity.
  - intros c Hc. apply filter_In in Hc. destruct Hc as [Hc N10].
    apply filter_In in Hc. destruct Hc as [_ N12].
    apply negb_true_iff in N10, N12.
    split; now apply String.eqb_neq.
Qed.

Lemma notebook_second_run_columns (out out' : DataFrame) :
  has_column out "API14" = true ->
  (exists kept,
      columns out = (kept ++ ["API12"]) ++ ["API10"]
      /\ (forall c, In c kept -> c <> "API12" /\ c <> "API10")) ->
  Notebook.generate_api_columns out = inr out' ->
  columns out' = columns out.
Proof.
  intros H14 (kept & E & K) H.
  destruct (notebook_generate_steps out out' H) as (df1 & df2 & S1 & _ & H2 & H3).
  assert (df1 = out) as ->.
  { destruct S1 as [[-> _] | (src & F & _)]; [reflexivity | congruence]. }
  apply with_column_columns in H2. apply with_column_columns in H3.
  assert (K12 : filter (fun c => negb (String.eqb c "API12")) kept = kept).
  { apply filter_absorb. intros c Hc. apply negb_true_iff, String.eqb_neq.
    now apply K. }
  assert (K10 : filter (fun c => negb (String.eqb c "API10")) kept = kept).
  { apply filter_absorb. intros c Hc. apply negb_true_iff, String.eqb_neq.
    now apply K. }
  rewrite H3, H2, E, !filter_app, K12. simpl.
  now rewrite K10, !app_nil_r.
Qed.

(** The notebook's normaliser changes nothing in a frame it has normalised,
    when the names of the columns are pairwise distinct. *)
Theorem notebook_normaliser_is_idempotent (df : DataFrame) :
  distinct (columns df) = true ->
  carries_identifier df = true ->
  exists out,
    Notebook.generate_api_columns df = inr out
    /\ Notebook.generate_api_columns out = inr out.
Proof.
  intros Hd Hc.
  destruct (notebook_normalises df Hc) as (out & H & N).
  destruct N as (B14 & B12 & B10 & _ & E12 & E10 & _).
  exists out. split; [assumption|].
  assert (Hc' : carries_identifier out = true)
    by (unfold carries_identifier; now rewrite B14).
  destruct (notebook_normalises out Hc') as (out' & H' & N').
  destruct N' as (_ & _ & _ & E14' & E12' & E10' & _).
  unfold api14_source in E14'. rewrite B14 in E14'.
  rewrite H'. f_equal.
  assert (W : forall a b, distinct (columns a) = true ->
                          Notebook.generate_api_columns a = inr b ->
                          distinct (columns b) = true /\ rectangular b = true).
  { intros a b Da Hab.
    destruct (notebook_generate_steps a b Hab) as (d1 & d2 & S1 & _ & H2 & H3).
    apply with_column_added in H2. destruct H2 as (_ & _ & _ & _ & D2).
    apply with_column_added in H3. destruct H3 as (R3 & _ & _ & _ & D3).
    split; [|assumption]. apply D3, D2.
    destruct S1 as [[-> _] | (src & _ & H1)]; [assumption|].
    apply with_column_added in H1. now apply H1. }
  destruct (W df out Hd H) as [Dout Rout].
  destruct (W out out' Dout H') as [Dout' Rout'].
  destruct (notebook_keeps_the_rest out out' H') as [L Rest].
  apply frame_ext; try assumption.
  - apply notebook_second_run_columns; try assumption.
    now apply (notebook_normalised_columns df).
  - intros m Hm.
    destruct (string_dec m "API14") as [->|N14]; [assumption|].
    destruct (string_dec m "API12") as [->|N12]; [now rewrite E12', E14'|].
    destruct (string_dec m "API10") as [->|N10]; [now rewrite E10', E14'|].
    now apply Rest.
Qed.

Lemma notebook_normaliser_is_idempotent_witness :
  exists out,
    Notebook.generate_api_columns wells_by_api = inr out
    /\ Notebook.generate_api_columns out = inr out.
Proof. apply notebook_normaliser_is_idempotent; reflexivity. Defined.

(** ** The script's join keeps a frame well formed *)






(** ** The script from end to end *)

Lemma scripts_generate_has_key (df out : DataFrame) :
  rectangular df = true ->
  Scripts.generate_api_columns df = inr out ->
  has_column out "API14" = true.
Proof.
  intros Hrect H.
  destruct (scripts_generate_steps df out Hrect H)
    as (df1 & df2 & _ & _ & _ & _ & H14 & A2 & A3).
  destruct A2 as (_ & _ & _ & B2 & _), A3 as (_ & _ & _ & B3 & _).
  now rewrite B3, B2, H14.
Qed.

(** With one row at most for each identifier in the environmental set and
    in the override set, the script returns one row for each row of the
    master set. *)
Theorem script_keeps_one_row_per_master_row
        (master_df env_df rbc_df out : DataFrame) :
  rectangular master_df = true ->
  NoDup (column env_df "API14") ->
  NoDup (column rbc_df "API14") ->
  Scripts.main master_df env_df rbc_df = inr out ->
  List.length (rows out) = List.length (rows master_df).
Proof.
  intros Hrect Ne Nr H. unfold Scripts.main in H.
  apply bind_inr in H. destruct H as (m1 & H1 & H).
  apply bind_inr in H. destruct H as (m2 & H2 & H3).
  destruct (scripts_keeps_the_rest master_df m1 Hrect H1) as [L1 _].
  apply merge_left_outer in H2. destruct H2 as [_ L2].
  apply merge_left_outer in H3. destruct H3 as [_ L3].
  rewrite L3, L2, L1 by assumption. reflexivity.
Qed.

Lemma script_keeps_one_row_per_master_row_witness :
  exists out,
    Scripts.main master_by_api env_by_key rbc_by_key = inr out
    /\ List.length (rows out) = List.length (rows master_by_api).
Proof.
  eexists. split; [reflexivity|].
  apply (script_keeps_one_row_per_master_row master_by_api env_by_key rbc_by_key);
    [reflexivity | | | reflexivity].
  - repeat constructor; simpl; intuition discriminate.
  - repeat constructor; simpl; intuition discriminate.
Defined.

(** A secondary set without the column [API14] makes the script fail: with
    [KeyError('API14')] when it is the environmental set, and in any case
    when it is the override set. *)
Theorem script_needs_the_key_in_secondary_sets
        (master_df env_df rbc_df : DataFrame) :
  rectangular master_df = true ->
  carries_identifier master_df = true ->
  (has_column env_df "API14" = false ->
   Scripts.main master_df env_df rbc_df = inl (KeyError "API14")) /\
  (has_column rbc_df "API14" = false ->
   exists e, Scripts.main master_df env_df rbc_df = inl e) /\
  (has_column rbc_df "API14" = false ->
   forall joined, Scripts.join_rbc_columns joined rbc_df = inl (KeyError "API14")).
Proof.
  intros Hrect Hc.
  destruct (scripts_generate_returns master_df Hc) as [m1 H1].
  assert (K := scripts_generate_has_key master_df m1 Hrect H1).
  assert (J : forall joined,
             has_column rbc_df "API14" = false ->
             Scripts.join_rbc_columns joined rbc_df = inl (KeyError "API14")).
  { intros joined Hr. unfold Scripts.join_rbc_columns, Pandas.merge.
    rewrite Hr. now rewrite orb_true_r. }
  split; [|split].
  - intros He. unfold Scripts.main. rewrite H1. simpl.
    unfold Scripts.join_env_columns, Pandas.merge. rewrite K, He. reflexivity.
  - intros Hr. unfold Scripts.main. rewrite H1. simpl.
    destruct (Scripts.join_env_columns m1 env_df) as [e|m2]; simpl.
    + now exists e.
    + rewrite J by assumption. eexists. reflexivity.
  - intros Hr joined. now apply J.
Qed.

Lemma script_needs_the_key_in_secondary_sets_witness :
  Scripts.main master_by_api rbc_without_key rbc_by_key = inl (KeyError "API14")
  /\ exists e, Scripts.main master_by_api env_by_key rbc_without_key = inl e.
Proof.
  split.
  - apply (script_needs_the_key_in_secondary_sets
             master_by_api rbc_without_key rbc_by_key); reflexivity.
  - apply (script_needs_the_key_in_secondary_sets
             master_by_api env_by_key rbc_without_key); reflexivity.
Defined.

(** ** The derived columns of the two shorter pipelines *)

Lemma derive_columns_inv (df out : DataFrame) :
  Root.derive_columns df = inr out ->
  exists d,
    Snowpark.with_column df "API_WELL_NUMBER"
      (Snowpark.cast_string (Snowpark.col "API_WELL_NUMBER")) = inr d
    /\ Snowpark.with_column d "WELL_NAME_UPPER"
         (Snowpark.upper (Snowpark.col "WELL_NAME")) = inr out.
Proof. intros H. unfold Root.derive_columns in H. now apply bind_inr in H. Qed.

(** [derive_columns] returns exactly for a frame with the columns
    [API_WELL_NUMBER] and [WELL_NAME], and fails with an SQL error for any
    other.  What it returns has the rows of the frame, one for one; a column
    [WELL_NAME_UPPER] with the upper-case well names, last, after
    [API_WELL_NUMBER]; and every other column with the values it had. *)
Theorem derive_columns_adds_upper_names (df : DataFrame) :
  (has_column df "API_WELL_NUMBER" && has_column df "WELL_NAME" = true <->
   exists out, Root.derive_columns df = inr out) /\
  (has_column df "API_WELL_NUMBER" && has_column df "WELL_NAME" = false ->
   Root.derive_columns df = inl (SnowparkSQLException "invalid identifier")) /\
  (forall out,
      Root.derive_columns df = inr out ->
      column out "WELL_NAME_UPPER"
      = map (option_map sql_upper) (column df "WELL_NAME")
      /\ List.length (rows out) = List.length (rows df)
      /\ (forall m, m <> "WELL_NAME_UPPER" -> column out m = column df m)
      /\ columns out
         = filter (fun c => negb (String.eqb c "WELL_NAME_UPPER"))
                  (filter (fun c => negb (String.eqb c "API_WELL_NUMBER"))
                          (columns df))
           ++ ["API_WELL_NUMBER"; "WELL_NAME_UPPER"]) /\
  SnowflakeTransform.derive_columns df = Root.derive_columns df.
Proof.
  assert (F : has_column df "API_WELL_NUMBER" && has_column df "WELL_NAME" = false ->
              Root.derive_columns df
              = inl (SnowparkSQLException "invalid identifier")).
  { intros H. unfold Root.derive_columns.
    destruct (has_column df "API_WELL_NUMBER") eqn:EA.
    - destruct (with_column_ok df "API_WELL_NUMBER"
                  (Snowpark.cast_string (Snowpark.col "API_WELL_NUMBER")))
        as [d Hd].
      { unfold Snowpark.resolves. simpl. now rewrite EA. }
      rewrite Hd. simpl. apply with_column_fails.
      unfold Snowpark.resolves. simpl.
      rewrite (with_column_has _ _ _ _ Hd). simpl in H. rewrite H. reflexivity.
    - rewrite with_column_fails; [reflexivity|].
      unfold Snowpark.resolves. simpl. now rewrite EA. }
  assert (T : has_column df "API_WELL_NUMBER" && has_column df "WELL_NAME" = true ->
              exists out, Root.derive_columns df = inr out).
  { intros H. apply andb_true_iff in H. destruct H as [EA EW].
    unfold Root.derive_columns.
    destruct (with_column_ok df "API_WELL_NUMBER"
                (Snowpark.cast_string (Snowpark.col "API_WELL_NUMBER")))
      as [d Hd].
    { unfold Snowpark.resolves. simpl. now rewrite EA. }
    rewrite Hd. simpl. apply with_column_ok.
    unfold Snowpark.resolves. simpl.
    rewrite (with_column_has _ _ _ _ Hd), EW. reflexivity. }
  split; [|split; [exact F|split; [|reflexivity]]].
  - split; [exact T|]. intros [out H].
    destruct (has_column df "API_WELL_NUMBER" && has_column df "WELL_NAME")
      eqn:E; [reflexivity|].
    rewrite F in H by reflexivity. discriminate.
  - intros out H. apply derive_columns_inv in H. destruct H as (d & H1 & H2).
    assert (A : column d "API_WELL_NUMBER" = column df "API_WELL_NUMBER").
    { rewrite (with_column_column_same _ _ _ _ H1). reflexivity. }
    assert (O : forall m, column d m = column df m).
    { intros m. destruct (string_dec "API_WELL_NUMBER" m) as [<-|N];
        [exact A | now apply (with_column_column_other _ _ _ _ H1)]. }
    split; [|split; [|split]].
    + rewrite (with_column_column_same _ _ _ _ H2).
      rewrite <- O. unfold column. rewrite map_map. reflexivity.
    + apply with_column_added in H1. apply with_column_added in H2.
      destruct H1 as (_ & L1 & _), H2 as (_ & L2 & _). congruence.
    + intros m Hm. rewrite <- O.
      apply (with_column_column_other _ _ _ _ H2). congruence.
    + rewrite (with_column_columns _ _ _ _ H2), (with_column_columns _ _ _ _ H1).
      rewrite filter_app. simpl. now rewrite <- app_assoc.
Qed.

(** ** The join of the two shorter pipelines *)

Lemma joined_rows_count (left right : DataFrame) (lkey rkey : string) (b : Row) :
  1 <= List.length (Snowpark.joined_rows left right lkey rkey b)
  /\ (NoDup (column right rkey) ->
      List.length (Snowpark.joined_rows left right lkey rkey b) = 1).
Proof.
  unfold Snowpark.joined_rows. split.
  - destruct (filter _ (rows right)); simpl; lia.
  - intros Hnd.
    assert (L := unique_key_matches Snowpark.sql_eq
                   (fun s => get (columns right) s rkey)
                   (get (columns left) b lkey) (rows right) sql_eq_eq Hnd).
    destruct (filter _ (rows right)) as [|s [|s' l]]; simpl in *;
      try reflexivity; lia.
Qed.

Lemma length_flat_map_ge {A B : Type} (f : A -> list B) (l : list A) :
  (forall a, 1 <= List.length (f a)) ->
  List.length l <= List.length (flat_map f l).
Proof.
  intros H. induction l as [|a l IH]; simpl; [lia|].
  rewrite length_app. specialize (H a). lia.
Qed.

(** [join_tables] keeps every left row: each output row begins with a left
    row, there are at least as many output rows as left rows, and exactly as
    many when no value of the right key column occurs twice. *)
Theorem join_tables_keeps_every_left_row
        (rnd : string * string) (df_left df_right : DataFrame)
        (join_exprs : string * string) :
  extends_base_rows df_left (Root.join_tables rnd df_left df_right join_exprs)
  /\ List.length (rows df_left)
     <= List.length (rows (Root.join_tables rnd df_left df_right join_exprs))
  /\ (NoDup (column df_right (snd join_exprs)) ->
      List.length (rows (Root.join_tables rnd df_left df_right join_exprs))
      = List.length (rows df_left))
  /\ SnowflakeTransform.join_tables rnd df_left df_right join_exprs
     = Root.join_tables rnd df_left df_right join_exprs.
Proof.
  unfold Root.join_tables, SnowflakeTransform.join_tables, Snowpark.join,
    extends_base_rows. simpl. split; [|split; [|split; [|reflexivity]]].
  - apply flat_map_extends. apply joined_rows_extend.
  - apply length_flat_map_ge. intros b. apply joined_rows_count.
  - intros Hnd. apply flat_map_singletons. intros b.
    now apply joined_rows_count.
Qed.

Lemma disambiguated_absent (common : list string) (prefix key : string)
      (names : list string) :
  mem key common = true ->
  (forall c, (prefix ++ c)%string <> key) ->
  mem key (map (Snowpark.disambiguate common prefix) names) = false.
Proof.
  intros Hc Hp. apply mem_false. intros H. apply in_map_iff in H.
  destruct H as [c [E _]]. unfold Snowpark.disambiguate in E.
  destruct (mem c common) eqn:Ec.
  - now apply Hp in E.
  - subst c. congruence.
Qed.

Lemma disambiguated_present (common : list string) (prefix key : string)
      (names : list string) :
  mem key common = true -> In key names ->
  In (prefix ++ key)%string (map (Snowpark.disambiguate common prefix) names).
Proof.
  intros Hc Hin. apply in_map_iff. exists key. split; [|assumption].
  unfold Snowpark.disambiguate. now rewrite Hc.
Qed.

(** Whenever one of the two shorter pipelines returns a frame, the frame has
    no column called [API_WELL_NUMBER]: the join is by expression, so the key
    column of each side is kept, under the names [l_..._API_WELL_NUMBER] and
    [r_..._API_WELL_NUMBER]. *)
Theorem root_pipeline_renames_the_key
        (session : Snowpark.Session) (rnd : string * string) (out : DataFrame) :
  Root.transform_master_wells_table session rnd = inr out
  \/ SnowflakeTransform.transform_master_wells_table session rnd = inr out ->
  has_column out "API_WELL_NUMBER" = false
  /\ In (Snowpark.l_prefix rnd ++ "API_WELL_NUMBER")%string (columns out)
  /\ In (Snowpark.r_prefix rnd ++ "API_WELL_NUMBER")%string (columns out).
Proof.
  intros H.
  assert (H' : Root.transform_master_wells_table session rnd = inr out)
    by (destruct H as [H|H]; exact H).
  clear H. unfold Root.transform_master_wells_table in H'.
  apply bind_inr in H'. destruct H' as (rb & _ & H).
  apply bind_inr in H. destruct H as (env & _ & H).
  apply bind_inr in H. destruct H as (rbc & _ & H).
  apply bind_inr in H. destruct H as (combined & _ & H).
  apply bind_inr in H. destruct H as (enhanced & _ & H).
  apply bind_inr in H. destruct H as (lkey & Hl & H).
  apply bind_inr in H. destruct H as (rkey & Hr & H).
  unfold Snowpark.getitem in Hl, Hr.
  destruct (has_column enhanced "API_WELL_NUMBER") eqn:El; [|discriminate].
  destruct (has_column rbc "API_WELL_NUMBER") eqn:Er; [|discriminate].
  unfold ok in *. injection Hl as <-. injection Hr as <-. injection H as <-.
  unfold Root.join_tables, Snowpark.join, has_column in *. cbn [fst snd columns].
  assert (Hc : mem "API_WELL_NUMBER"
                 (filter (fun c => mem c (columns rbc)) (columns enhanced)) = true).
  { apply mem_In, filter_In. split; [now apply mem_In | exact Er]. }
  split; [|split].
  - rewrite mem_app.
    rewrite !disambiguated_absent; try assumption; try reflexivity;
      intros c; unfold Snowpark.l_prefix, Snowpark.r_prefix; simpl;
      discriminate.
  - apply in_or_app. left. apply disambiguated_present; [assumption|].
    now apply mem_In.
  - apply in_or_app. right. apply disambiguated_present; [assumption|].
    now apply mem_In.
Qed.

Lemma root_pipeline_renames_the_key_witness :
  exists out,
    Root.transform_master_wells_table sample_session ("av5t", "1p6k") = inr out
    /\ has_column out "API_WELL_NUMBER" = false
    /\ In (Snowpark.l_prefix ("av5t", "1p6k") ++ "API_WELL_NUMBER")%string
          (columns out)
    /\ In (Snowpark.r_prefix ("av5t", "1p6k") ++ "API_WELL_NUMBER")%string
          (columns out).
Proof.
  eexists. split; [reflexivity|].
  apply (root_pipeline_renames_the_key sample_session). left. reflexivity.
Defined.

(** ** More on the union by name *)

Lemma dedup_length (l : list Row) :
  List.length (Snowpark.dedup l) <= List.length l.
Proof.
  induction l as [|a l IH]; simpl; [lia|].
  assert (H := filter_length_le (fun x => negb (row_eqb a x)) (Snowpark.dedup l)).
  lia.
Qed.

(** The union by name of a well-formed first set is well formed, and has no
    more rows than the two sets together. *)
Theorem union_tables_is_well_formed (df1 df2 out : DataFrame) :
  well_formed df1 = true ->
  Root.union_tables df1 df2 = inr out ->
  well_formed out = true
  /\ List.length (rows out)
     <= List.length (rows df1) + List.length (rows df2).
Proof.
  unfold well_formed at 1. rewrite andb_true_iff. intros [D1 R1] H.
  unfold Root.union_tables, Snowpark.union_by_name in H.
  destruct (find _ (columns df1)); [discriminate|].
  destruct (Nat.eqb _ _); [|discriminate].
  unfold ok in H. injection H as <-. split.
  - unfold well_formed. simpl. rewrite D1. simpl.
    apply rectangular_Forall. simpl. apply Forall_forall. intros r Hr.
    apply dedup_In, in_app_iff in Hr. destruct Hr as [Hr | Hr].
    + apply rectangular_Forall in R1. rewrite Forall_forall in R1. now apply R1.
    + apply in_map_iff in Hr. destruct Hr as [r2 [<- _]]. apply project_length.
  - simpl. etransitivity; [apply dedup_length|].
    rewrite length_app, length_map. lia.
Qed.

Lemma union_tables_is_well_formed_witness :
  exists out,
    Root.union_tables set_a set_a' = inr out
    /\ well_formed out = true
    /\ List.length (rows out)
       <= List.length (rows set_a) + List.length (rows set_a').
Proof.
  eexists. split; [reflexivity|].
  apply (union_tables_is_well_formed set_a set_a'); reflexivity.
Defined.

(** A row arranged by name in another column order, and back. *)
Lemma project_round_trip (c1 c2 : list string) (r : Row) :
  NoDup c2 -> incl c2 c1 -> List.length r = List.length c2 ->
  project c1 (project c2 r c1) c2 = r.
Proof.
  intros Hnd Hincl Hlen.
  transitivity (project c2 r c2); [|now apply project_self].
  unfold project at 1 3. apply map_ext_in. intros m Hm.
  rewrite get_project.
  assert (mem m c1 = true) as -> by (apply mem_In, Hincl, Hm). reflexivity.
Qed.

(** The union by name does not depend on which set comes first, but for the
    order of the columns: when the union of two well-formed sets returns, so
    does the union taken the other way round, and its rows are the rows of the
    first union arranged by name in the column order of the second set. *)
Theorem union_tables_commutes (df1 df2 out : DataFrame) :
  well_formed df1 = true ->
  well_formed df2 = true ->
  Root.union_tables df1 df2 = inr out ->
  exists out',
    Root.union_tables df2 df1 = inr out'
    /\ columns out' = columns df2
    /\ forall r', In r' (rows out') <->
                  exists r, In r (rows out)
                            /\ r' = project (columns df1) r (columns df2).
Proof.
  intros W1 W2 H.
  apply well_formed_parts in W1 as W1'. destruct W1' as [N1 F1].
  apply well_formed_parts in W2 as W2'. destruct W2' as [N2 F2].
  rewrite Forall_forall in F1, F2.
  assert (D1 : distinct (columns df1) = true) by now apply distinct_NoDup.
  assert (D2 : distinct (columns df2) = true) by now apply distinct_NoDup.
  unfold Root.union_tables in *.
  assert (S : same_names df1 df2).
  { apply (union_by_name_returns df1 df2 D1 D2). now exists out. }
  assert (S' : same_names df2 df1) by (intros c; symmetry; apply S).
  destruct (proj1 (union_by_name_returns df2 df1 D2 D1) S') as [out' H'].
  exists out'. split; [assumption|].
  destruct (union_by_name_result df1 df2 out H) as (_ & _ & R).
  destruct (union_by_name_result df2 df1 out' H') as (C' & _ & R').
  split; [assumption|].
  assert (I12 : incl (columns df1) (columns df2)) by (intros c; apply S).
  assert (I21 : incl (columns df2) (columns df1)) by (intros c; apply S).
  intros r'. rewrite R'. split.
  - intros [Hr' | (r1 & Hr1 & ->)].
    + exists (project (columns df2) r' (columns df1)). split.
      * apply R. right. now exists r'.
      * symmetry. apply project_round_trip; auto.
    + exists r1. split; [|reflexivity]. apply R. now left.
  - intros (r & Hr & ->). apply R in Hr. destruct Hr as [Hr | (r2 & Hr2 & ->)].
    + right. now exists r.
    + left. rewrite project_round_trip; auto.
Qed.

Lemma union_tables_commutes_witness :
  exists out',
    Root.union_tables set_a' set_a = inr out'
    /\ columns out' = columns set_a'
    /\ forall r', In r' (rows out') <->
                  exists r, In r (rows set_a_union)
                            /\ r' = project (columns set_a) r (columns set_a').
Proof.
  apply (union_tables_commutes set_a set_a' set_a_union); reflexivity.
Defined.

(** ** The notebook's [main] *)

(** [main] of the notebook writes nothing: the transformation fails, so the
    warehouse is left as it was and the error is what [main] ends with. *)
Theorem notebook_main_never_writes
        (session : Snowpark.Session) (database schema : option string)
        (output_table env_table rbc_table : string)
        (rnd1 rnd2 : string * string) :
  exists e,
    Notebook.main session database schema output_table env_table rbc_table
                  rnd1 rnd2
    = (session, inl e).
Proof.
  unfold Notebook.main.
  destruct (notebook_pipeline_fails session env_table rbc_table rnd1 rnd2)
    as [e H].
  rewrite H. now exists e.
Qed.

(** ** Qualified table names *)

(** The name [build_table_name] returns always ends with the table name.
    What comes before it is empty exactly when the schema is absent or empty,
    is [schema.] when only the schema is given, and [database.schema.] when
    both are given. *)
Theorem build_table_name_ends_with_table
        (table : string) (database schema : option string) :
  exists qualifier,
    build_table_name table database schema = (qualifier ++ table)%string
    /\ (qualifier = "" <-> truthy schema = false)
    /\ (truthy schema = true -> truthy database = false ->
        qualifier = (fmt schema ++ ".")%string)
    /\ (truthy schema = true -> truthy database = true ->
        qualifier = (fmt database ++ "." ++ fmt schema ++ ".")%string).
Proof.
  unfold build_table_name.
  assert (A : forall a b c : string, ((a ++ b) ++ c = a ++ (b ++ c))%string).
  { intros a b c. induction a as [|x a IH]; simpl; [reflexivity | now rewrite IH]. }
  assert (Ne : forall a b : string, (a ++ String "." b)%string <> "").
  { intros [|x a] b; discriminate. }
  destruct (truthy database) eqn:Ed, (truthy schema) eqn:Es; simpl.
  - exists (fmt database ++ "." ++ fmt schema ++ ".")%string. split.
    + now rewrite !A.
    + split; [|split; intros; first [reflexivity | congruence]].
      split; [|discriminate]. intros H. exfalso. revert H. apply Ne.
  - exists "". repeat split; intros; first [reflexivity | congruence].
  - exists (fmt schema ++ ".")%string. split.
    + now rewrite A.
    + split; [|split; intros; first [reflexivity | congruence]].
      split; [|discriminate]. intros H. exfalso. revert H. apply Ne.
  - exists "". repeat split; intros; first [reflexivity | congruence].
Qed.

(** ** When the two shorter pipelines return *)

Lemma root_transform_on_tables (session : Snowpark.Session)
      (rnd : string * string) (rb env rbc : DataFrame) :
  reads_tables session (Some rb) (Some env) (Some rbc) ->
  Root.transform_master_wells_table session rnd
  = (combined <- Root.union_tables rb env ;;
     enhanced <- Root.derive_columns combined ;;
     lkey <- Snowpark.getitem enhanced "API_WELL_NUMBER" ;;
     rkey <- Snowpark.getitem rbc "API_WELL_NUMBER" ;;
     ok (Root.join_tables rnd enhanced rbc (lkey, rkey))).
Proof.
  intros (H1 & H2 & H3).
  unfold Root.transform_master_wells_table, Root.load_table, Snowpark.table.
  now rewrite H1, H2, H3.
Qed.

(** The pipelines of [master_wells_transform.py] and
    [notebooks/snowflake_transform.py] fail when one of their three tables is
    missing.  When the tables are there, with pairwise-distinct column names
    in the two primary ones, the pipelines return exactly when the two primary
    tables have the same column names, [API_WELL_NUMBER] and [WELL_NAME] among
    them, and the override table has [API_WELL_NUMBER]. *)
Theorem root_pipeline_returns_exactly_when
        (session : Snowpark.Session) (rnd : string * string)
        (rb env rbc : option DataFrame) :
  reads_tables session rb env rbc ->
  (rb = None \/ env = None \/ rbc = None ->
   exists e, Root.transform_master_wells_table session rnd = inl e) /\
  (forall t1 t2 t3,
      rb = Some t1 -> env = Some t2 -> rbc = Some t3 ->
      distinct (columns t1) = true -> distinct (columns t2) = true ->
      (same_names t1 t2
       /\ has_column t1 "API_WELL_NUMBER" = true
       /\ has_column t1 "WELL_NAME" = true
       /\ has_column t3 "API_WELL_NUMBER" = true
       <-> exists out,
             Root.transform_master_wells_table session rnd = inr out)) /\
  SnowflakeTransform.transform_master_wells_table session rnd
  = Root.transform_master_wells_table session rnd.
Proof.
  intros Hs. split; [|split; [|reflexivity]].
  - destruct Hs as (H1 & H2 & H3).
    unfold Root.transform_master_wells_table, Root.load_table, Snowpark.table.
    rewrite H1, H2, H3.
    intros [-> | [-> | ->]]; simpl.
    + eexists. reflexivity.
    + destruct rb; eexists; reflexivity.
    + destruct rb; [|eexists; reflexivity].
      destruct env; eexists; reflexivity.
  - intros t1 t2 t3 -> -> -> D1 D2.
    rewrite (root_transform_on_tables session rnd t1 t2 t3 Hs).
    unfold Root.union_tables. split.
    + intros (S & HA & HW & HR).
      destruct (proj1 (union_by_name_returns t1 t2 D1 D2) S) as [combined Hu].
      rewrite Hu. simpl.
      destruct (union_by_name_result t1 t2 combined Hu) as (Hc & _).
      assert (HA' : has_column combined "API_WELL_NUMBER" = true)
        by (unfold has_column; now rewrite Hc).
      assert (HW' : has_column combined "WELL_NAME" = true)
        by (unfold has_column; now rewrite Hc).
      destruct (proj1 (proj1 (derive_columns_adds_upper_names combined)))
        as [enhanced He]; [now rewrite HA', HW'|].
      rewrite He. simpl.
      apply derive_columns_inv in He. destruct He as (d & Hd1 & Hd2).
      unfold Snowpark.getitem.
      rewrite (with_column_has _ _ _ _ Hd2), (with_column_has _ _ _ _ Hd1), HR.
      simpl. rewrite orb_true_r. simpl. eexists. reflexivity.
    + intros [out H].
      apply bind_inr in H. destruct H as (combined & Hu & H).
      apply bind_inr in H. destruct H as (enhanced & He & H).
      apply bind_inr in H. destruct H as (lkey & _ & H).
      apply bind_inr in H. destruct H as (rkey & Hr & _).
      destruct (union_by_name_result t1 t2 combined Hu) as (Hc & _).
      assert (B : has_column combined "API_WELL_NUMBER"
                  && has_column combined "WELL_NAME" = true).
      { apply (proj1 (derive_columns_adds_upper_names combined)).
        now exists enhanced. }
      apply andb_true_iff in B. unfold has_column in B. rewrite Hc in B.
      split; [|split; [apply B|split; [apply B|]]].
      * apply (union_by_name_returns t1 t2 D1 D2). now exists combined.
      * unfold Snowpark.getitem in Hr.
        now destruct (has_column t3 "API_WELL_NUMBER").
Qed.

Lemma root_pipeline_returns_exactly_when_witness :
  exists out,
    Root.transform_master_wells_table sample_session ("av5t", "1p6k") = inr out.
Proof.
  apply (proj1 (proj2 (root_pipeline_returns_exactly_when
                         sample_session ("av5t", "1p6k") _ _ _
                         (conj eq_refl (conj eq_refl eq_refl))))
               _ _ _ eq_refl eq_refl eq_refl eq_refl eq_refl).
  repeat split; try reflexivity.
  - simpl. intuition.
  - simpl. intuition.
Defined.

(** ** The order of the columns *)

Lemma setitem_columns (df : DataFrame) (n : string) (s : Pandas.Series) :
  columns (Pandas.setitem df n s)
  = columns df ++ (if has_column df n then [] else [n]).
Proof.
  unfold Pandas.setitem. destruct (has_column df n); simpl;
    [now rewrite app_nil_r | reflexivity].
Qed.

(** The script leaves the columns of the frame where they are and adds the
    identifier columns the frame lacks after them, in the order [API14],
    [API12], [API10].  The notebook keeps the other columns in their order
    and puts [API12] and [API10] last, in this order, whether the frame had
    them or not. *)
Theorem order_of_the_normalised_columns (df : DataFrame) :
  carries_identifier df = true ->
  (exists out,
      Scripts.generate_api_columns df = inr out
      /\ columns out = columns df ++ missing_identifier_columns df) /\
  (exists out kept,
      Notebook.generate_api_columns df = inr out
      /\ columns out = kept ++ ["API12"; "API10"]
      /\ kept
         = filter (fun c => negb (String.eqb c "API10"))
             (filter (fun c => negb (String.eqb c "API12"))
                     (columns df ++ (if has_column df "API14" then []
                                     else ["API14"])))).
Proof.
  intros Hc. split.
  - destruct (scripts_generate_returns df Hc) as [out H]. exists out.
    split; [assumption|].
    unfold Scripts.generate_api_columns in H.
    apply bind_inr in H. destruct H as (df1 & H1 & H).
    unfold ok in H. injection H as <-.
    assert (E1 : columns df1
                 = columns df ++ (if has_column df "API14" then [] else ["API14"])
                 /\ (forall m, m <> "API14" ->
                               has_column df1 m = has_column df m)).
    { assert (S : forall s,
                 columns (Pandas.setitem df "API14" s)
                 = columns df ++ (if has_column df "API14" then []
                                  else ["API14"])
                 /\ (forall m, m <> "API14" ->
                               has_column (Pandas.setitem df "API14" s) m
                               = has_column df m)).
      { intros s. split; [apply setitem_columns|]. intros m Hm.
        rewrite setitem_has.
        assert (String.eqb m "API14" = false) as -> by now apply String.eqb_neq.
        apply orb_false_r. }
      unfold carries_identifier in Hc.
      destruct (has_column df "API14") eqn:E14; simpl in H1.
      - injection H1 as <-. split; [now rewrite app_nil_r | reflexivity].
      - destruct (has_column df "API") eqn:EA.
        + injection H1 as <-.
          destruct (S (Pandas.str_zfill 14
                         (Pandas.astype_str (Pandas.getitem df "API"))))
            as [Sa Sb].
          split; [exact Sa | exact Sb].
        + destruct (has_column df "APINumber"); [|discriminate].
          injection H1 as <-.
          destruct (S (Pandas.str_zfill 14
                         (Pandas.astype_str (Pandas.getitem df "APINumber"))))
            as [Sa Sb].
          split; [exact Sa | exact Sb]. }
    destruct E1 as [E1 B1].
    rewrite !setitem_columns, setitem_has, E1, !B1 by discriminate.
    simpl. rewrite orb_false_r. unfold missing_identifier_columns. simpl.
    destruct (has_column df "API14"), (has_column df "API12"),
      (has_column df "API10"); simpl; rewrite <- ?app_assoc, ?app_nil_r;
      reflexivity.
  - destruct (notebook_generate_returns df Hc) as [out H].
    destruct (notebook_generate_steps df out H) as (df1 & df2 & S1 & _ & H2 & H3).
    eexists out, _. split; [assumption|].
    apply with_column_columns in H2. apply with_column_columns in H3.
    rewrite H3, H2, filter_app. simpl. rewrite <- app_assoc. simpl.
    split; [reflexivity|].
    destruct S1 as [[-> E] | (src & E & H1)].
    + rewrite E. now rewrite app_nil_r.
    + apply with_column_columns in H1. rewrite H1, E.
      rewrite (filter_absorb (fun c => negb (String.eqb c "API14")) (columns df));
        [reflexivity|].
      intros c Hin. apply negb_true_iff, String.eqb_neq. intros ->.
      apply has_column_In in Hin. congruence.
Qed.

Lemma order_of_the_normalised_columns_witness :
  (exists out,
      Scripts.generate_api_columns wells_by_api = inr out
      /\ columns out = columns wells_by_api
                       ++ missing_identifier_columns wells_by_api) /\
  (exists out kept,
      Notebook.generate_api_columns wells_by_api = inr out
      /\ columns out = kept ++ ["API12"; "API10"]
      /\ kept
         = filter (fun c => negb (String.eqb c "API10"))
             (filter (fun c => negb (String.eqb c "API12"))
                     (columns wells_by_api
                      ++ (if has_column wells_by_api "API14" then []
                          else ["API14"])))).
Proof. apply order_of_the_normalised_columns; reflexivity. Defined.

(** ** When the script returns *)

Lemma disjoint_incl (l1 l2 p : list string) :
  incl l1 l2 -> disjoint l2 p = true -> disjoint l1 p = true.
Proof.
  unfold disjoint. rewrite !forallb_forall. intros Hi H c Hc.
  apply H, Hi, Hc.
Qed.

(** The script returns a frame whenever the master set has an identifier
    column, the two secondary sets have [API14], and no other column name of a
    secondary set is a column name of the master set, an identifier column, or
    a column name of the other secondary set.  The columns of the result are
    the normalised columns of the master set, then the environmental columns,
    then the override columns, under their own names. *)
Theorem script_returns_for_separate_names
        (master_df env_df rbc_df : DataFrame) :
  carries_identifier master_df = true ->
  has_column env_df "API14" = true ->
  has_column rbc_df "API14" = true ->
  disjoint (columns master_df ++ ["API14"; "API12"; "API10"])
           (payload_names env_df) = true ->
  disjoint (columns master_df ++ ["API14"; "API12"; "API10"])
           (payload_names rbc_df) = true ->
  disjoint (payload_names env_df) (payload_names rbc_df) = true ->
  exists out,
    Scripts.main master_df env_df rbc_df = inr out
    /\ columns out
       = (columns master_df ++ missing_identifier_columns master_df)
         ++ payload_names env_df ++ payload_names rbc_df.
Proof.
  intros Hc He Hr D1 D2 D3.
  destruct (proj1 (order_of_the_normalised_columns master_df Hc))
    as (m1 & H1 & C1).
  assert (I : incl (columns m1)
                   (columns master_df ++ ["API14"; "API12"; "API10"])).
  { rewrite C1. intros c Hin. apply in_app_iff in Hin. apply in_app_iff.
    destruct Hin as [Hin | Hin]; [now left | right].
    unfold missing_identifier_columns in Hin. apply filter_In in Hin.
    apply Hin. }
  assert (K : has_column m1 "API14" = true).
  { apply has_column_In. rewrite C1. apply in_or_app.
    destruct (has_column master_df "API14") eqn:E;
      [left; now apply has_column_In | right].
    unfold missing_identifier_columns. apply filter_In.
    split; [now left | now rewrite E]. }
  destruct (merge_disjoint m1 env_df "_env" K He (disjoint_incl _ _ _ I D1))
    as (m2 & H2 & C2).
  assert (K2 : has_column m2 "API14" = true).
  { unfold has_column in *. now rewrite C2, mem_app, K. }
  destruct (merge_disjoint m2 rbc_df "_rbc" K2 Hr) as (out & H3 & C3).
  { rewrite C2, disjoint_app, (disjoint_incl _ _ _ I D2), D3. reflexivity. }
  exists out. split.
  - unfold Scripts.main, Scripts.join_env_columns, Scripts.join_rbc_columns.
    rewrite H1. simpl. rewrite H2. simpl. exact H3.
  - now rewrite C3, C2, C1, <- !app_assoc.
Qed.

Lemma script_returns_for_separate_names_witness :
  exists out,
    Scripts.main master_by_api env_by_key rbc_by_key = inr out
    /\ columns out
       = (columns master_by_api ++ missing_identifier_columns master_by_api)
         ++ payload_names env_by_key ++ payload_names rbc_by_key.
Proof. apply script_returns_for_separate_names; reflexivity. Defined.
